(** * SpeakFlow client: completion pollers and the recording screen

    A shallow embedding of the stateful control flow of the SpeakFlow
    front end:

    - [pollSessionStatus]  (packages api client, also copied into
      apps/mobile/app/(app)/daily.tsx),
    - [waitForCompletion]  (mobile/src/services/api.ts),
    - [startRecording] / [stopRecording]  (useAudioRecorder.ts),
    - [handleStartRecording] / [handleStopRecording]  (RecordScreen.tsx).

    Asynchronous code is modelled in a state-and-exception monad over a
    world that carries the chronological log of every externally visible
    effect (requests, callback invocations, waits, React state updates). *)

From Stdlib Require Import ZArith List String Bool Lia.
From Stdlib Require Import Ascii DecimalString DecimalZ.
From Equations Require Import Equations.
Import ListNotations.

Local Open Scope string_scope.
Local Open Scope list_scope.
Local Open Scope Z_scope.

(** ** Data model *)

(** [SessionStatus] is the TypeScript union
    ['pending' | 'processing' | 'completed' | 'failed'].  The value comes
    out of [JSON.parse] with an unchecked cast, so at run time it is an
    arbitrary string. *)
Definition SessionStatus := string.

(** The fields of [SessionStatusResponse] read by the pollers. *)
Record SessionStatusResponse := mkStatus {
  id : string;
  status : SessionStatus;
  error_message : option string
}.

(** [SessionResponse] / [SessionReport]: an opaque payload for the client,
    passed through unmodified. *)
Record SessionResponse := mkReport {
  report_id : string;
  report_status : SessionStatus;
  report_body : string
}.

(** [SessionCreateResponse]. *)
Record SessionCreateResponse := mkCreated {
  session_id : string;
  create_status : string
}.

(** Thrown values.  [ApiError] carries an HTTP-like status code; every
    other exception ([Error], [TypeError] of a failed fetch) has none. *)
Record JsError := mkError {
  err_name : string;
  err_message : string;
  err_status : option Z
}.

Definition ApiError (message : string) (code : Z) : JsError :=
  mkError "ApiError" message (Some code).

Definition Error (message : string) : JsError :=
  mkError "Error" message None.

(** Outcome of an awaited promise: fulfilled with a value or rejected. *)
Inductive Result (A : Type) : Type :=
| Ok (a : A)
| Throw (e : JsError).
Arguments Ok {A} a.
Arguments Throw {A} e.

(** What [onProgress] receives: the status string ([pollSessionStatus]) or
    the whole status response ([waitForCompletion]). *)
Inductive Payload :=
| PStatus (s : SessionStatus)
| PResponse (r : SessionStatusResponse).

Inductive RecordingPhase := idle | recording | uploading | processing.

(** Externally visible effects, in the order they happen. *)
Inductive Event :=
| EvGetStatus (sessionId : string) (r : Result SessionStatusResponse)
| EvProgress (p : Payload)
| EvGetReport (sessionId : string) (r : Result SessionResponse)
| EvSleep (ms : Z)
| EvCreateSession (audioUri contentType : string)
                  (r : Result SessionCreateResponse)
| EvSetPhase (p : RecordingPhase)
| EvSetError (e : option string)
| EvNavigateReport (r : SessionResponse).

(** JavaScript truthiness of a nullable string, and [a || b]. *)
Definition truthy (s : option string) : bool :=
  match s with
  | Some s' => negb (String.eqb s' "")
  | None => false
  end.

Definition js_or (s : option string) (dflt : string) : string :=
  match s with
  | Some s' => if String.eqb s' "" then dflt else s'
  | None => dflt
  end.

(** A default parameter value: used when the argument is omitted.
    Attempt counts and intervals are JavaScript numbers; every caller
    passes integers, and they are integers here. *)
Definition or_default (arg : option Z) (dflt : Z) : Z :=
  match arg with
  | Some v => v
  | None => dflt
  end.

(** ** Trace observers *)

Definition is_status_call (e : Event) : bool :=
  match e with EvGetStatus _ _ => true | _ => false end.

Definition is_report_call (e : Event) : bool :=
  match e with EvGetReport _ _ => true | _ => false end.

Definition is_progress (e : Event) : bool :=
  match e with EvProgress _ => true | _ => false end.

Definition is_sleep (e : Event) : bool :=
  match e with EvSleep _ => true | _ => false end.


Definition is_upload (e : Event) : bool :=
  match e with EvCreateSession _ _ _ => true | _ => false end.

Definition count (f : Event -> bool) (t : list Event) : nat :=
  List.length (filter f t).

Definition status_calls : list Event -> nat := count is_status_call.
Definition report_calls : list Event -> nat := count is_report_call.
Definition progress_calls : list Event -> nat := count is_progress.
Definition upload_calls : list Event -> nat := count is_upload.

(** The payloads delivered to [onProgress], oldest first. *)
Fixpoint progress_log (t : list Event) : list Payload :=
  match t with
  | [] => []
  | EvProgress p :: t' => p :: progress_log t'
  | _ :: t' => progress_log t'
  end.

(** The status responses received, oldest first. *)
Fixpoint observed (t : list Event) : list SessionStatusResponse :=
  match t with
  | [] => []
  | EvGetStatus _ (Ok r) :: t' => r :: observed t'
  | _ :: t' => observed t'
  end.

(** The intervals waited, oldest first. *)
Fixpoint sleeps (t : list Event) : list Z :=
  match t with
  | [] => []
  | EvSleep ms :: t' => ms :: sleeps t'
  | _ :: t' => sleeps t'
  end.

(** ** The world and the monad of asynchronous code *)

Section Client.

(** State owned by the caller (React state, flags of the component that
    started the poll); callbacks update it. *)
Context {S : Type}.

Record World := mkWorld {
  trace : list Event;
  caller : S
}.

(** What the outside does.  The k-th request to an endpoint gets the k-th
    answer (k counted from 0 over the whole run); an answer is either the
    parsed body or the exception thrown by the fetch wrapper.
    [while_waiting k] is whatever other code of the caller runs while the
    poller is suspended in its k-th wait (a navigation handler, an
    unmount): it can change the caller's state and nothing else. *)
Record Env := mkEnv {
  status_reply : string -> nat -> Result SessionStatusResponse;
  report_reply : string -> nat -> Result SessionResponse;
  create_reply : string -> string -> nat -> Result SessionCreateResponse;
  while_waiting : nat -> S -> S
}.

Definition M (A : Type) : Type := World -> World * Result A.

Definition ret {A} (a : A) : M A := fun w => (w, Ok a).

Definition throw {A} (e : JsError) : M A := fun w => (w, Throw e).

Definition bind {A B} (m : M A) (k : A -> M B) : M B :=
  fun w =>
    match m w with
    | (w', Ok a) => k a w'
    | (w', Throw e) => (w', Throw e)
    end.

(** [try { m } catch (e) { h e }]. *)
Definition try_catch {A} (m : M A) (h : JsError -> M A) : M A :=
  fun w =>
    match m w with
    | (w', Ok a) => (w', Ok a)
    | (w', Throw e) => h e w'
    end.

(** Lift an answer of the outside into the monad. *)
Definition await {A} (r : Result A) : M A := fun w => (w, r).

Definition log (e : Event) : M unit :=
  fun w => (mkWorld (trace w ++ [e]) (caller w), Ok tt).

Definition update (f : S -> S) : M unit :=
  fun w => (mkWorld (trace w) (f (caller w)), Ok tt).

End Client.

Arguments World S : clear implicits.
Arguments Env S : clear implicits.
Arguments M S A : clear implicits.

Declare Scope client_scope.
Delimit Scope client_scope with client.
Notation "x <- m ;; k" := (bind m (fun x => k))
  (at level 61, m at next level, right associativity) : client_scope.
Notation "m ;; k" := (bind m (fun _ => k))
  (at level 61, right associativity) : client_scope.

Local Open Scope client_scope.

(** Early exit from a loop body. *)
Inductive Step (A : Type) : Type :=
| Continue
| Return (a : A).
Arguments Continue {A}.
Arguments Return {A} a.

(** ** Endpoints, timer, callback *)

Section Pollers.

Context {S : Type}.
Variable env : Env S.

(** [api.sessions.getStatus] / [api.getSessionStatus]. *)
Definition getStatus (sessionId : string) : M S SessionStatusResponse :=
  fun w =>
    let r := status_reply env sessionId (status_calls (trace w)) in
    (log (EvGetStatus sessionId r) ;; await r) w.

(** [api.sessions.get] / [api.getSessionReport]. *)
Definition getReport (sessionId : string) : M S SessionResponse :=
  fun w =>
    let r := report_reply env sessionId (report_calls (trace w)) in
    (log (EvGetReport sessionId r) ;; await r) w.

(** [api.createSession]. *)
Definition createSession (audioUri contentType : string)
  : M S SessionCreateResponse :=
  fun w =>
    let r := create_reply env audioUri contentType (upload_calls (trace w)) in
    (log (EvCreateSession audioUri contentType r) ;; await r) w.

(** [await new Promise(resolve => setTimeout(resolve, ms))]: the wait is
    logged, and the caller's other code gets to run meanwhile. *)
Definition sleep (ms : Z) : M S unit :=
  fun w =>
    let k := count is_sleep (trace w) in
    (log (EvSleep ms) ;; update (while_waiting env k)) w.

(** [onProgress?.(p)] and [if (onProgress) onProgress(p)], for a callback
    that returns normally and only reads what it is handed, as the one
    RecordScreen passes does: it is logged and applied to the caller's
    state.  A callback that throws, or that writes to the response object,
    is not covered by this model. *)
Definition notify (onProgress : option (Payload -> S -> S)) (p : Payload)
  : M S unit :=
  match onProgress with
  | Some f => log (EvProgress p) ;; update (f p)
  | None => ret tt
  end.

(** ** pollSessionStatus (shared api client, and its copy in daily.tsx)

<<
  export async function pollSessionStatus(sessionId, onProgress?,
      interval = 1000, maxAttempts = 120) {
    let attempts = 0
    while (attempts < maxAttempts) {
      const status = await api.sessions.getStatus(sessionId)
      onProgress?.(status.status)
      if (status.status === 'completed') return api.sessions.get(sessionId)
      if (status.status === 'failed')
        throw new ApiError(status.error_message || 'Processing failed', 500)
      await new Promise((resolve) => setTimeout(resolve, interval))
      attempts++
    }
    throw new ApiError('Processing timed out', 408)
  }
>> *)

Definition poll_body (sessionId : string)
    (onProgress : option (Payload -> S -> S)) (interval : Z)
  : M S (Step SessionResponse) :=
  st <- getStatus sessionId ;;
  notify onProgress (PStatus (status st)) ;;
  if String.eqb (status st) "completed" then
    r <- getReport sessionId ;; ret (Return r)
  else if String.eqb (status st) "failed" then
    throw (ApiError (js_or (error_message st) "Processing failed") 500)
  else
    sleep interval ;; ret Continue.

Equations? poll_loop (sessionId : string)
    (onProgress : option (Payload -> S -> S)) (interval maxAttempts : Z)
    (attempts : Z) (w : World S) : World S * Result SessionResponse
    by wf (Z.to_nat (maxAttempts - attempts)) lt :=
  poll_loop sessionId onProgress interval maxAttempts attempts w
    with Z_lt_dec attempts maxAttempts := {
    | left _ with poll_body sessionId onProgress interval w := {
      | (w', Ok Continue) :=
          poll_loop sessionId onProgress interval maxAttempts (attempts + 1) w'
      | (w', Ok (Return r)) := (w', Ok r)
      | (w', Throw e) := (w', Throw e) }
    | right _ := (w, Throw (ApiError "Processing timed out" 408)) }.
Proof. lia. Qed.

Definition pollSessionStatus (sessionId : string)
    (onProgress : option (Payload -> S -> S))
    (interval maxAttempts : option Z) : M S SessionResponse :=
  let interval := or_default interval 1000 in
  let maxAttempts := or_default maxAttempts 120 in
  poll_loop sessionId onProgress interval maxAttempts 0.

(** ** waitForCompletion (mobile api service)

<<
  async waitForCompletion(sessionId, onProgress?,
      maxAttempts = 60, intervalMs = 2000) {
    for (let i = 0; i < maxAttempts; i++) {
      const status = await this.getSessionStatus(sessionId);
      if (onProgress) { onProgress(status); }
      if (status.status === 'completed')
        return this.getSessionReport(sessionId);
      if (status.status === 'failed')
        throw new ApiError(500, status.error_message || 'Processing failed');
      await new Promise(resolve => setTimeout(resolve, intervalMs));
    }
    throw new ApiError(408, 'Timeout waiting for processing to complete');
  }
>> *)

Definition wait_body (sessionId : string)
    (onProgress : option (Payload -> S -> S)) (intervalMs : Z)
  : M S (Step SessionResponse) :=
  st <- getStatus sessionId ;;
  notify onProgress (PResponse st) ;;
  if String.eqb (status st) "completed" then
    r <- getReport sessionId ;; ret (Return r)
  else if String.eqb (status st) "failed" then
    throw (ApiError (js_or (error_message st) "Processing failed") 500)
  else
    sleep intervalMs ;; ret Continue.

Equations? wait_loop (sessionId : string)
    (onProgress : option (Payload -> S -> S)) (maxAttempts intervalMs : Z)
    (i : Z) (w : World S) : World S * Result SessionResponse
    by wf (Z.to_nat (maxAttempts - i)) lt :=
  wait_loop sessionId onProgress maxAttempts intervalMs i w
    with Z_lt_dec i maxAttempts := {
    | left _ with wait_body sessionId onProgress intervalMs w := {
      | (w', Ok Continue) :=
          wait_loop sessionId onProgress maxAttempts intervalMs (i + 1) w'
      | (w', Ok (Return r)) := (w', Ok r)
      | (w', Throw e) := (w', Throw e) }
    | right _ :=
        (w, Throw (ApiError "Timeout waiting for processing to complete" 408)) }.
Proof. lia. Qed.

Definition waitForCompletion (sessionId : string)
    (onProgress : option (Payload -> S -> S))
    (maxAttempts intervalMs : option Z) : M S SessionResponse :=
  let maxAttempts := or_default maxAttempts 60 in
  let intervalMs := or_default intervalMs 2000 in
  wait_loop sessionId onProgress maxAttempts intervalMs 0.

End Pollers.

(** ** useAudioRecorder (mobile hook) *)

(** [RecordingState] of the hook. *)
Record RecordingState := mkRecordingState {
  isRecording : bool;
  isPaused : bool;
  duration : Z;
  uri : option string
}.

(** The hook: its React state, the metering level, and its two refs
    ([recordingRef.current] holds the live [Audio.Recording], if any;
    [intervalRef.current] the metering timer). *)
Record Recorder := mkRecorder {
  state : RecordingState;
  metering : Z;
  recordingRef : bool;
  intervalRef : bool
}.

(** The platform audio API (expo-av), by what each call answers. *)
Record Audio := mkAudio {
  requestPermissionsAsync : Result bool;
  setAudioModeAsync : bool -> Result unit;
  prepareToRecordAsync : Result unit;
  startAsync : Result unit;
  stopAndUnloadAsync : Result unit;
  getURI : option string
}.

(** React state of [RecordScreen], with the hook it owns. *)
Record Screen := mkScreen {
  phase : RecordingPhase;
  error : option string;
  processingStatus : string;
  recorder : Recorder
}.

Definition initial_recorder : Recorder :=
  mkRecorder (mkRecordingState false false 0 None) (-160) false false.

Definition initial_screen : Screen :=
  mkScreen idle None "" initial_recorder.

Section RecordScreen.

Variable audio : Audio.
Variable env : Env Screen.

Definition with_recorder (f : Recorder -> Recorder) (s : Screen) : Screen :=
  mkScreen (phase s) (error s) (processingStatus s) (f (recorder s)).

Definition read {A} (f : Screen -> A) : M Screen A :=
  fun w => (w, Ok (f (caller w))).

(** [startRecording] of the hook.  The metering timer it installs only
    refreshes [duration] and [metering]; its ticks are not modelled. *)
Definition startRecording : M Screen unit :=
  try_catch
    (granted <- await (requestPermissionsAsync audio) ;;
     if negb granted then throw (Error "Microphone permission required")
     else
       await (setAudioModeAsync audio true) ;;
       await (prepareToRecordAsync audio) ;;
       await (startAsync audio) ;;
       update (with_recorder (fun r =>
         mkRecorder (state r) (metering r) true (intervalRef r))) ;;
       update (with_recorder (fun r =>
         mkRecorder (state r) (metering r) (recordingRef r) true)) ;;
       update (with_recorder (fun r =>
         mkRecorder (mkRecordingState true false 0 None)
                    (metering r) (recordingRef r) (intervalRef r))))
    (fun e => throw e).

(** [stopRecording] of the hook: [null] when nothing is being recorded,
    otherwise the URI of the captured file (possibly [null]). *)
Definition stopRecording : M Screen (option string) :=
  try_catch
    (live <- read (fun s => recordingRef (recorder s)) ;;
     if negb live then ret None
     else
       update (with_recorder (fun r =>
         mkRecorder (state r) (metering r) (recordingRef r) false)) ;;
       await (stopAndUnloadAsync audio) ;;
       let u := getURI audio in
       update (with_recorder (fun r =>
         mkRecorder (state r) (metering r) false (intervalRef r))) ;;
       await (setAudioModeAsync audio false) ;;
       update (with_recorder (fun r =>
         mkRecorder (mkRecordingState false false (duration (state r)) u)
                    (metering r) (recordingRef r) (intervalRef r))) ;;
       ret u)
    (fun e => throw e).

(** [resetRecording] of the hook. *)
Definition resetRecording : M Screen unit :=
  update (with_recorder (fun r =>
    mkRecorder (mkRecordingState false false 0 None) (-160)
               (recordingRef r) (intervalRef r))).

(** React state setters of the screen; phase and error changes are also
    logged, so that the phases passed through can be read off the trace. *)
Definition setPhase (p : RecordingPhase) : M Screen unit :=
  log (EvSetPhase p) ;;
  update (fun s => mkScreen p (error s) (processingStatus s) (recorder s)).

Definition setError (e : option string) : M Screen unit :=
  log (EvSetError e) ;;
  update (fun s => mkScreen (phase s) e (processingStatus s) (recorder s)).

Definition setProcessingStatus (v : string) (s : Screen) : Screen :=
  mkScreen (phase s) (error s) v (recorder s).

Definition navigateReport (r : SessionResponse) : M Screen unit :=
  log (EvNavigateReport r).

(** ** RecordScreen handlers

<<
  const handleStartRecording = useCallback(async () => {
    try {
      setError(null);
      await recorder.startRecording();
      setPhase('recording');
    } catch (e: any) { setError(e.message); }
  }, [recorder]);
>> *)
Definition handleStartRecording : M Screen unit :=
  try_catch
    (setError None ;;
     startRecording ;;
     setPhase recording)
    (fun e => setError (Some (err_message e))).

(** The progress callback the screen passes to the poller:
    [(status) => { setProcessingStatus(status.status); }]. *)
Definition onProcessingProgress (p : Payload) : Screen -> Screen :=
  match p with
  | PResponse r => setProcessingStatus (status r)
  | PStatus s => setProcessingStatus s
  end.

(**
<<
  const handleStopRecording = useCallback(async () => {
    try {
      const uri = await recorder.stopRecording();
      if (!uri) { setError('No recording found'); setPhase('idle'); return; }
      setPhase('uploading');
      const createResponse = await api.createSession(uri, 'audio/m4a');
      setPhase('processing');
      const report = await api.waitForCompletion(
        createResponse.session_id,
        (status) => { setProcessingStatus(status.status); });
      navigation.navigate('Report', { report });
      setPhase('idle');
      recorder.resetRecording();
    } catch (e: any) { setError(e.message); setPhase('idle'); }
  }, [recorder, navigation]);
>> *)
Definition handleStopRecording : M Screen unit :=
  try_catch
    (u <- stopRecording ;;
     match u with
     | Some audioUri =>
         if String.eqb audioUri "" then
           setError (Some "No recording found") ;; setPhase idle
         else
           setPhase uploading ;;
           createResponse <- createSession env audioUri "audio/m4a" ;;
           setPhase processing ;;
           report <- waitForCompletion env (session_id createResponse)
                       (Some onProcessingProgress) None None ;;
           navigateReport report ;;
           setPhase idle ;;
           resetRecording
     | None =>
         setError (Some "No recording found") ;; setPhase idle
     end)
    (fun e => setError (Some (err_message e)) ;; setPhase idle).

End RecordScreen.

(** ** The two pollers side by side *)

Inductive Poller := Web | Mobile.

Section Run.

Context {S : Type}.
Variable env : Env S.

(** Runs either poller; [waitForCompletion] takes its two numeric
    parameters in the opposite order. *)
Definition run_poller (p : Poller) (sessionId : string)
    (onProgress : option (Payload -> S -> S))
    (interval maxAttempts : option Z) : M S SessionResponse :=
  match p with
  | Web => pollSessionStatus env sessionId onProgress interval maxAttempts
  | Mobile => waitForCompletion env sessionId onProgress maxAttempts interval
  end.

End Run.

Definition default_interval (p : Poller) : Z :=
  match p with Web => 1000 | Mobile => 2000 end.

Definition default_maxAttempts (p : Poller) : Z :=
  match p with Web => 120 | Mobile => 60 end.

Definition payload_of (p : Poller) (st : SessionStatusResponse) : Payload :=
  match p with Web => PStatus (status st) | Mobile => PResponse st end.

Definition timeout_error (p : Poller) : JsError :=
  match p with
  | Web => ApiError "Processing timed out" 408
  | Mobile => ApiError "Timeout waiting for processing to complete" 408
  end.

Definition failed_error (st : SessionStatusResponse) : JsError :=
  ApiError (js_or (error_message st) "Processing failed") 500.

(** How a caller tells the two poller errors apart: by the status code. *)
Definition is_timeout (e : JsError) : bool :=
  match err_status e with Some c => Z.eqb c 408 | None => false end.

Definition is_processing_failed (e : JsError) : bool :=
  match err_status e with Some c => Z.eqb c 500 | None => false end.

(** A status that ends the poll. *)
Definition terminal (st : SessionStatusResponse) : bool :=
  String.eqb (status st) "completed" || String.eqb (status st) "failed".

Definition in_progress (st : SessionStatusResponse) : bool :=
  String.eqb (status st) "pending" || String.eqb (status st) "processing".

(** The events of one callback invocation, if a callback was given. *)
Definition callback_events {S} (onProgress : option (Payload -> S -> S))
    (p : Payload) : list Event :=
  match onProgress with
  | Some _ => [EvProgress p]
  | None => []
  end.

(** The events of one attempt that observes [st] and goes on waiting. *)
Definition attempt_events {S} (p : Poller) (sessionId : string)
    (onProgress : option (Payload -> S -> S)) (interval : Z)
    (st : SessionStatusResponse) : list Event :=
  EvGetStatus sessionId (Ok st)
    :: callback_events onProgress (payload_of p st) ++ [EvSleep interval].

(** The status endpoint answers the next requests with [rs], in order. *)
Definition answers {S} (env : Env S) (sessionId : string) (w : World S)
    (rs : list SessionStatusResponse) : Prop :=
  map (status_reply env sessionId)
      (seq (status_calls (trace w)) (List.length rs)) = map Ok rs.

(** ** The loops, turn by turn *)

Section Turns.

Context {S : Type}.
Variable env : Env S.

(** One turn of either loop. *)
Definition body (p : Poller) (sessionId : string)
    (onProgress : option (Payload -> S -> S)) (interval : Z)
  : M S (Step SessionResponse) :=
  match p with
  | Web => poll_body env sessionId onProgress interval
  | Mobile => wait_body env sessionId onProgress interval
  end.

(** [n] turns of the loop, then the timeout. *)
Fixpoint iterate (p : Poller) (sessionId : string)
    (onProgress : option (Payload -> S -> S)) (interval : Z)
    (n : nat) (w : World S) : World S * Result SessionResponse :=
  match n with
  | O => (w, Throw (timeout_error p))
  | Datatypes.S n' =>
      match body p sessionId onProgress interval w with
      | (w', Ok Continue) => iterate p sessionId onProgress interval n' w'
      | (w', Ok (Return r)) => (w', Ok r)
      | (w', Throw e) => (w', Throw e)
      end
  end.

End Turns.

(** ** Scripted environments *)

(** An environment that answers status requests from a script (and with
    [dflt] once the script is used up), always answers the report request
    with [report], and in which nothing else happens during waits. *)
Definition scripted {S} (script : list SessionStatusResponse)
    (dflt : SessionStatusResponse) (report : Result SessionResponse)
  : Env S :=
  mkEnv (fun _ k => Ok (nth k script dflt))
        (fun _ _ => report)
        (fun _ _ _ => Throw (Error "Network request failed"))
        (fun _ s => s).

Definition st_pending : SessionStatusResponse := mkStatus "abc" "pending" None.
Definition st_processing : SessionStatusResponse :=
  mkStatus "abc" "processing" None.
Definition st_completed : SessionStatusResponse :=
  mkStatus "abc" "completed" None.
Definition st_failed (m : option string) : SessionStatusResponse :=
  mkStatus "abc" "failed" m.
Definition sample_report : SessionResponse :=
  mkReport "abc" "completed" "{scores, transcript, coaching}".

Definition fresh : World unit := mkWorld [] tt.

Definition st_archived : SessionStatusResponse :=
  mkStatus "abc" "archived" None.

(** ** Progress callbacks, by their place in the log *)


(** ** A caller that cancels *)

(** A caller that keeps a cancellation flag and counts the callbacks it
    still receives once the flag is up. *)
Record Watcher := mkWatcher {
  cancelled : bool;
  late_callbacks : nat
}.

(** The user leaves during the second wait, after 2 attempts. *)
Definition cancel_after_two_attempts (k : nat) (s : Watcher) : Watcher :=
  if Nat.eqb k 1 then mkWatcher true (late_callbacks s) else s.

Definition count_late (_ : Payload) (s : Watcher) : Watcher :=
  if cancelled s then mkWatcher true (Datatypes.S (late_callbacks s)) else s.

Definition cancelling_env : Env Watcher :=
  mkEnv (fun _ _ => Ok st_pending)
        (fun _ _ => Ok sample_report)
        (fun _ _ _ => Throw (Error "Network request failed"))
        cancel_after_two_attempts.

Definition watching : World Watcher := mkWorld [] (mkWatcher false 0).

(** ** Devices and screens *)

(** The phases set, oldest first. *)
Fixpoint phases_entered (t : list Event) : list RecordingPhase :=
  match t with
  | [] => []
  | EvSetPhase ph :: t' => ph :: phases_entered t'
  | _ :: t' => phases_entered t'
  end.

(** A device on which the user refuses the microphone. *)
Definition denied_audio : Audio :=
  mkAudio (Ok false) (fun _ => Ok tt) (Ok tt) (Ok tt) (Ok tt) None.

(** A device that records to a file. *)
Definition working_audio : Audio :=
  mkAudio (Ok true) (fun _ => Ok tt) (Ok tt) (Ok tt) (Ok tt)
          (Some "file:///recording.m4a").

Definition screen_at_rest : World Screen := mkWorld [] initial_screen.

(** A backend that accepts the upload as session "abc" and reports
    processing once, then completed. *)
Definition serving : Env Screen :=
  mkEnv (fun _ k => Ok (nth k [st_processing] st_completed))
        (fun _ _ => Ok sample_report)
        (fun _ _ _ => Ok (mkCreated "abc" "pending"))
        (fun _ s => s).

(** ** The shape of a poll *)

(** The logs a poll of at most [n] turns can leave, with the way it ends:
    the budget runs out; a status request fails; the job has failed; the
    job is completed and the report is requested; or the answer is neither
    and the poll waits and goes on. *)
Inductive poll_log {S} (p : Poller) (sessionId : string)
    (onProgress : option (Payload -> S -> S)) (interval : Z)
  : nat -> list Event -> Result SessionResponse -> Prop :=
| poll_timed_out :
    poll_log p sessionId onProgress interval 0 [] (Throw (timeout_error p))
| poll_request_failed n e :
    poll_log p sessionId onProgress interval (Datatypes.S n)
      [EvGetStatus sessionId (Throw e)] (Throw e)
| poll_job_failed n st :
    status st = "failed" ->
    poll_log p sessionId onProgress interval (Datatypes.S n)
      (EvGetStatus sessionId (Ok st)
         :: callback_events onProgress (payload_of p st))
      (Throw (failed_error st))
| poll_job_completed n st answer :
    status st = "completed" ->
    poll_log p sessionId onProgress interval (Datatypes.S n)
      (EvGetStatus sessionId (Ok st)
         :: callback_events onProgress (payload_of p st)
         ++ [EvGetReport sessionId answer])
      answer
| poll_goes_on n st evs res :
    terminal st = false ->
    poll_log p sessionId onProgress interval n evs res ->
    poll_log p sessionId onProgress interval (Datatypes.S n)
      (attempt_events p sessionId onProgress interval st ++ evs) res.

(** The last status response received, if any. *)
Definition last_observed (t : list Event) : option SessionStatusResponse :=
  List.last (map Some (observed t)) None.

(** Whether the last status response received said [completed]. *)
Definition completed_last (t : list Event) : bool :=
  match last_observed t with
  | Some st => String.eqb (status st) "completed"
  | None => false
  end.

(** What happens to the caller's state along a log: a callback applies
    [f], the k-th wait lets the caller's other code run. *)
Fixpoint replay {S} (env : Env S) (f : Payload -> S -> S)
    (evs : list Event) (k : nat) (s : S) : S :=
  match evs with
  | [] => s
  | EvProgress q :: evs' => replay env f evs' k (f q s)
  | EvSleep _ :: evs' =>
      replay env f evs' (Datatypes.S k) (while_waiting env k s)
  | _ :: evs' => replay env f evs' k s
  end.

(** ** More observers of the log *)



(** A device on which preparing the recorder fails. *)
Definition broken_audio : Audio :=
  mkAudio (Ok true) (fun _ => Ok tt)
          (Throw (Error "Recorder is already prepared")) (Ok tt) (Ok tt) None.

(** ** The rest of the recorder hook *)

Section PauseResume.

Variable audio : Audio.

(** [recordingRef.current.pauseAsync()], by what it answers. *)
Variable pauseAsync : Result unit.

(**
<<
  const pauseRecording = useCallback(async () => {
    if (recordingRef.current) {
      await recordingRef.current.pauseAsync();
      setState(prev => ({ ...prev, isPaused: true }));
    }
  }, []);
>> *)
Definition pauseRecording : M Screen unit :=
  live <- read (fun s => recordingRef (recorder s)) ;;
  if live then
    await pauseAsync ;;
    update (with_recorder (fun r =>
      mkRecorder (mkRecordingState (isRecording (state r)) true
                                   (duration (state r)) (uri (state r)))
                 (metering r) (recordingRef r) (intervalRef r)))
  else ret tt.

(**
<<
  const resumeRecording = useCallback(async () => {
    if (recordingRef.current) {
      await recordingRef.current.startAsync();
      setState(prev => ({ ...prev, isPaused: false }));
    }
  }, []);
>> *)
Definition resumeRecording : M Screen unit :=
  live <- read (fun s => recordingRef (recorder s)) ;;
  if live then
    await (startAsync audio) ;;
    update (with_recorder (fun r =>
      mkRecorder (mkRecordingState (isRecording (state r)) false
                                   (duration (state r)) (uri (state r)))
                 (metering r) (recordingRef r) (intervalRef r)))
  else ret tt.

End PauseResume.

(** ** More devices, backends and screens *)

(** A device whose recorder cannot be stopped. *)
Definition stuck_audio : Audio :=
  mkAudio (Ok true) (fun _ => Ok tt) (Ok tt) (Ok tt)
          (Throw (Error "Recorder does not exist")) None.

(** The screen while a recording is running on a working device. *)
Definition screen_recording : World Screen :=
  fst (handleStartRecording working_audio screen_at_rest).

(** A backend that accepts the upload as session "abc" and then reports
    the job as failed. *)
Definition failing_backend : Env Screen :=
  mkEnv (fun _ k => Ok (nth k [st_pending] (st_failed (Some "Audio too short"))))
        (fun _ _ => Ok sample_report)
        (fun _ _ _ => Ok (mkCreated "abc" "pending"))
        (fun _ s => s).

(** A backend that accepts the upload as session "abc" and then reports
    the job as failed without any message. *)
Definition silent_failing_backend : Env Screen :=
  mkEnv (fun _ _ => Ok (st_failed None))
        (fun _ _ => Ok sample_report)
        (fun _ _ _ => Ok (mkCreated "abc" "pending"))
        (fun _ s => s).

(** ** Token storage and request headers *)

(** A JavaScript object or a web storage used as a map from strings to
    strings: keys in insertion order, no key twice. *)
Definition Dict := list (string * string).

(** [obj[k]] / [localStorage.getItem(k)]. *)
Fixpoint dict_get (k : string) (d : Dict) : option string :=
  match d with
  | [] => None
  | (k', v) :: d' => if String.eqb k' k then Some v else dict_get k d'
  end.

(** [obj[k] = v] / [localStorage.setItem(k, v)]: an existing key keeps its
    place, a new key goes last. *)
Fixpoint dict_set (k v : string) (d : Dict) : Dict :=
  match d with
  | [] => [(k, v)]
  | (k', v') :: d' =>
      if String.eqb k' k then (k, v) :: d' else (k', v') :: dict_set k v d'
  end.

(** [localStorage.removeItem(k)]. *)
Fixpoint dict_remove (k : string) (d : Dict) : Dict :=
  match d with
  | [] => []
  | (k', v') :: d' =>
      if String.eqb k' k then dict_remove k d' else (k', v') :: dict_remove k d'
  end.

(** [{ ...base, ...extra }]. *)
Definition spread (base extra : Dict) : Dict :=
  fold_left (fun acc kv => dict_set (fst kv) (snd kv) acc) extra base.

(** Where the code runs: in a browser ([typeof window !== 'undefined'],
    with its [localStorage]) or on the server. *)
Record Browser := mkBrowser {
  has_window : bool;
  localStorage : Dict
}.

(** The [StorageAdapter] interface, over the storage [B] it works on. *)
Record StorageAdapter (B : Type) := mkAdapter {
  getItem : string -> B -> option string;
  setItem : string -> string -> B -> B;
  removeItem : string -> B -> B
}.
Arguments getItem {B} _ _ _.
Arguments setItem {B} _ _ _ _.
Arguments removeItem {B} _ _ _.

(** The default adapter of the shared client; the token functions of the
    web client in daily.tsx do the same inline. *)
Definition defaultAdapter : StorageAdapter Browser :=
  mkAdapter Browser
    (fun key b =>
       if has_window b then dict_get key (localStorage b) else None)
    (fun key value b =>
       if has_window b
       then mkBrowser (has_window b) (dict_set key value (localStorage b))
       else b)
    (fun key b =>
       if has_window b
       then mkBrowser (has_window b) (dict_remove key (localStorage b))
       else b).

Definition TOKEN_KEY : string := "speakflow_token".

Section AuthToken.

Context {B : Type}.

(** The module-level [storageAdapter], as [setStorageAdapter] left it. *)
Variable storageAdapter : StorageAdapter B.

Definition getAuthToken (b : B) : option string :=
  getItem storageAdapter TOKEN_KEY b.

Definition setAuthToken (token : string) (b : B) : B :=
  setItem storageAdapter TOKEN_KEY token b.

Definition clearAuthToken (b : B) : B :=
  removeItem storageAdapter TOKEN_KEY b.

End AuthToken.

(** The headers [apiFetch] sends:
<<
  const headers = { 'Content-Type': 'application/json',
                    ...(options.headers || {}) }
  if (token) { headers['Authorization'] = `Bearer ${token}` }
>> *)
Definition apiFetch_headers (token : option string)
    (options_headers : option Dict) : Dict :=
  let headers :=
    spread [("Content-Type", "application/json")]
           (match options_headers with Some h => h | None => [] end) in
  match token with
  | Some t =>
      if String.eqb t "" then headers
      else dict_set "Authorization" (String.append "Bearer " t) headers
  | None => headers
  end.

(** ** Answers of the HTTP layer *)

(** The body of an error response: not JSON at all, or a JSON object with
    or without a [detail] string. *)
Inductive ErrorBody :=
| NotJson
| Json (detail : option string).

Record ErrorResponse := mkErrorResponse {
  http_status : Z;
  statusText : string;
  error_body : ErrorBody
}.

(** What [fetch] gives: it rejects, or it resolves with a response that is
    not [ok], or with one that is [ok] and has the text [body]. *)
Inductive Http :=
| FetchRejects (e : JsError)
| NotOk (r : ErrorResponse)
| IsOk (body : string).

Section FetchWrappers.

Context {A : Type}.

(** [JSON.parse] at the expected type; it may throw. *)
Variable parse : string -> Result A.

(** [{}] at the expected type. *)
Variable empty_object : A.

(** [apiFetch] of the web clients, after the request has been sent:
<<
  if (!response.ok) {
    let data; try { data = await response.json() } catch { data = null }
    const message = data?.detail || response.statusText
    throw new ApiError(message, response.status, data)
  }
  const text = await response.text()
  if (!text) return {} as T
  return JSON.parse(text) as T
>> *)
Definition apiFetch (h : Http) : Result A :=
  match h with
  | FetchRejects e => Throw e
  | NotOk r =>
      let detail :=
        match error_body r with
        | NotJson => None
        | Json d => d
        end in
      Throw (ApiError (js_or detail (statusText r)) (http_status r))
  | IsOk body =>
      if String.eqb body "" then Ok empty_object else parse body
  end.

End FetchWrappers.

(** ** Responses as the mobile service reads them *)

(** The [detail] member of a JSON error body: a string, or any other JSON
    value, of which the code uses only whether it is truthy and what
    [String(value)] makes of it (the array of objects of a validation
    error becomes "[object Object]"). *)
Inductive Detail :=
| DetailString (s : string)
| DetailOther (is_truthy : bool) (as_string : string).

(** What [response.json()] does on an error response: it rejects (the
    body is not JSON), or it resolves with [null], or with any other JSON
    value, which has a [detail] member or has none (numbers, strings,
    booleans and arrays have none). *)
Inductive ErrorJson :=
| JsonRejects
| JsonNull
| JsonValue (detail : option Detail).

(** A [Response]: not [ok], with its status, status text and body, or
    [ok] with the text of its body. *)
Inductive Response :=
| ResponseNotOk (code : Z) (text : string) (json : ErrorJson)
| ResponseOk (body : string).

(** [detail || statusText], and what the [Error] constructor makes of it
    as the message. *)
Definition detail_or (detail : option Detail) (text : string) : string :=
  match detail with
  | Some (DetailString d) => if String.eqb d "" then text else d
  | Some (DetailOther is_truthy as_string) =>
      if is_truthy then as_string else text
  | None => text
  end.

Section MobileResponses.

Context {A : Type}.

(** [response.json()] of an [ok] response, at the expected type. *)
Variable parse : string -> Result A.

(** The [TypeError] the engine throws for [null.detail]; its message
    differs between engines. *)
Variable detail_of_null : JsError.

(** [handleResponse] of the mobile service:
<<
  if (!response.ok) {
    const error = await response.json()
                    .catch(() => ({ detail: 'Unknown error' }));
    throw new ApiError(response.status, error.detail || response.statusText);
  }
  return response.json();
>> *)
Definition handleResponse (response : Response) : Result A :=
  match response with
  | ResponseNotOk code text json =>
      match json with
      | JsonRejects =>
          Throw (ApiError
                   (detail_or (Some (DetailString "Unknown error")) text) code)
      | JsonNull => Throw detail_of_null
      | JsonValue detail => Throw (ApiError (detail_or detail text) code)
      end
  | ResponseOk body => parse body
  end.

End MobileResponses.

(** The [TypeError] for [null.detail] as the Hermes engine words it. *)
Definition hermes_detail_of_null : JsError :=
  mkError "TypeError" "Cannot read property 'detail' of null" None.

(** A backend that answers every upload with [response], read through
    [handleResponse]. *)
Definition rejecting_upload (response : Response) : Env Screen :=
  mkEnv (fun _ _ => Ok (mkStatus "abc" "pending" None))
        (fun _ _ => Ok (mkReport "abc" "completed" "{}"))
        (fun _ _ _ =>
           handleResponse (fun _ => Ok (mkCreated "abc" "pending"))
                          hermes_detail_of_null response)
        (fun _ s => s).

(** ** The duration shown while recording *)

(** [Number.MAX_SAFE_INTEGER], 2^53 - 1.  Up to it whole numbers are
    exact doubles, [Math.floor(seconds / 60)] and [seconds % 60] give the
    exact quotient and remainder, and [toString] prints every digit; the
    definitions below stand for the code on that range only. *)
Definition MAX_SAFE_INTEGER : Z := 9007199254740991.

(** [n.toString()] of a whole number within the safe integers. *)
Definition toString (n : Z) : string := NilZero.string_of_int (Z.to_int n).

Fixpoint filler (n : nat) (c : ascii) : string :=
  match n with
  | O => ""
  | Datatypes.S n' => String c (filler n' c)
  end.

(** [s.padStart(targetLength, c)] for a one-character pad. *)
Definition padStart (targetLength : nat) (c : ascii) (s : string) : string :=
  String.append (filler (targetLength - String.length s) c) s.

(** [formatDuration] of RecordScreen, given the hook's whole seconds (a
    safe integer):
<<
  const mins = Math.floor(seconds / 60);
  const secs = seconds % 60;
  return `${mins}:${secs.toString().padStart(2, '0')}`;
>> *)
Definition formatDuration (seconds : Z) : string :=
  let mins := seconds / 60 in
  let secs := Z.rem seconds 60 in
  String.append (toString mins)
    (String.append ":" (padStart 2 "0" (toString secs))).

(** * Proofs *)

(** ** Unrolling the loops *)

Section Unrolling.

Context {S : Type}.
Variable env : Env S.

Lemma poll_loop_iterate sessionId onProgress interval maxAttempts :
  forall n attempts w,
    n = Z.to_nat (maxAttempts - attempts) ->
    poll_loop env sessionId onProgress interval maxAttempts attempts w
    = iterate env Web sessionId onProgress interval n w.
Proof.
  induction n as [|n IH]; intros attempts w Hn; simp poll_loop.
  - destruct (Z_lt_dec attempts maxAttempts) as [Hlt|Hge]; [lia|].
    reflexivity.
  - destruct (Z_lt_dec attempts maxAttempts) as [Hlt|Hge]; [|lia].
    cbn [iterate body poll_loop_unfold_clause_1].
    destruct (poll_body env sessionId onProgress interval w) as [w' [[|r]|e]];
      cbn [poll_loop_unfold_clause_1_clause_1]; try reflexivity.
    apply IH. lia.
Qed.

Lemma wait_loop_iterate sessionId onProgress interval maxAttempts :
  forall n i w,
    n = Z.to_nat (maxAttempts - i) ->
    wait_loop env sessionId onProgress maxAttempts interval i w
    = iterate env Mobile sessionId onProgress interval n w.
Proof.
  induction n as [|n IH]; intros i w Hn; simp wait_loop.
  - destruct (Z_lt_dec i maxAttempts) as [Hlt|Hge]; [lia|].
    reflexivity.
  - destruct (Z_lt_dec i maxAttempts) as [Hlt|Hge]; [|lia].
    cbn [iterate body wait_loop_unfold_clause_1].
    destruct (wait_body env sessionId onProgress interval w) as [w' [[|r]|e]];
      cbn [wait_loop_unfold_clause_1_clause_1]; try reflexivity.
    apply IH. lia.
Qed.

Lemma run_poller_iterate p sessionId onProgress interval maxAttempts w :
  run_poller env p sessionId onProgress interval maxAttempts w
  = iterate env p sessionId onProgress
      (or_default interval (default_interval p))
      (Z.to_nat (or_default maxAttempts (default_maxAttempts p))) w.
Proof.
  destruct p; cbn [run_poller default_interval default_maxAttempts].
  - apply poll_loop_iterate. f_equal. lia.
  - apply wait_loop_iterate. f_equal. lia.
Qed.

End Unrolling.

(** ** Counting events *)

Lemma count_app f (a b : list Event) :
  count f (a ++ b) = (count f a + count f b)%nat.
Proof. unfold count. rewrite filter_app, length_app. reflexivity. Qed.

Lemma progress_log_app a b :
  progress_log (a ++ b) = progress_log a ++ progress_log b.
Proof.
  induction a as [|e a IH]; [reflexivity|].
  destruct e; cbn; rewrite IH; reflexivity.
Qed.

Lemma observed_app a b : observed (a ++ b) = observed a ++ observed b.
Proof.
  induction a as [|e a IH]; [reflexivity|].
  destruct e as [sid [st|err]| | | | | | |]; cbn; rewrite IH; reflexivity.
Qed.

Lemma sleeps_app a b : sleeps (a ++ b) = sleeps a ++ sleeps b.
Proof.
  induction a as [|e a IH]; [reflexivity|].
  destruct e; cbn; rewrite IH; reflexivity.
Qed.



Lemma count_callback_events {S} f (cb : option (Payload -> S -> S)) p :
  f (EvProgress p) = false -> count f (callback_events cb p) = 0%nat.
Proof. intros H. destruct cb; cbn; [rewrite H|]; reflexivity. Qed.

Lemma terminal_false st :
  terminal st = false ->
  String.eqb (status st) "completed" = false
  /\ String.eqb (status st) "failed" = false.
Proof. unfold terminal. intros H. apply orb_false_iff in H. exact H. Qed.

Lemma in_progress_not_terminal st : in_progress st = true -> terminal st = false.
Proof.
  unfold in_progress, terminal. intros H.
  apply orb_true_iff in H. destruct H as [H|H];
    apply String.eqb_eq in H; rewrite H; reflexivity.
Qed.

(** ** One turn of the loop *)

Section OneTurn.

Context {S : Type}.
Variable env : Env S.
Variable p : Poller.
Variable sessionId : string.
Variable onProgress : option (Payload -> S -> S).
Variable interval : Z.

Lemma body_transport_error w e :
  status_reply env sessionId (status_calls (trace w)) = Throw e ->
  body env p sessionId onProgress interval w
  = (mkWorld (trace w ++ [EvGetStatus sessionId (Throw e)]) (caller w),
     Throw e).
Proof.
  intros H. destruct p; cbn; unfold poll_body, wait_body, getStatus, bind;
    cbn; rewrite H; reflexivity.
Qed.

Lemma body_in_flight w st :
  status_reply env sessionId (status_calls (trace w)) = Ok st ->
  terminal st = false ->
  exists c,
    body env p sessionId onProgress interval w
    = (mkWorld (trace w ++ attempt_events p sessionId onProgress interval st) c,
       Ok Continue).
Proof.
  intros H Ht. apply terminal_false in Ht. destruct Ht as [Hc Hf].
  destruct p, onProgress; cbn;
    unfold poll_body, wait_body, getStatus, sleep, bind; cbn;
    rewrite H; cbn; rewrite Hc, Hf; cbn;
    rewrite <- ?app_assoc; cbn; eexists; reflexivity.
Qed.

Lemma body_failed w st :
  status_reply env sessionId (status_calls (trace w)) = Ok st ->
  status st = "failed" ->
  exists c,
    body env p sessionId onProgress interval w
    = (mkWorld (trace w ++ EvGetStatus sessionId (Ok st)
                  :: callback_events onProgress (payload_of p st)) c,
       Throw (failed_error st)).
Proof.
  intros H Hf.
  destruct p, onProgress; cbn;
    unfold poll_body, wait_body, getStatus, bind; cbn;
    rewrite H; cbn; rewrite Hf; cbn;
    rewrite <- ?app_assoc; cbn; eexists; reflexivity.
Qed.

Lemma body_completed w st :
  status_reply env sessionId (status_calls (trace w)) = Ok st ->
  status st = "completed" ->
  let answer := report_reply env sessionId (report_calls (trace w)) in
  exists c,
    body env p sessionId onProgress interval w
    = (mkWorld (trace w ++ EvGetStatus sessionId (Ok st)
                  :: callback_events onProgress (payload_of p st)
                  ++ [EvGetReport sessionId answer]) c,
       match answer with
       | Ok r => Ok (Return r)
       | Throw e => Throw e
       end).
Proof.
  intros H Hc answer. subst answer.
  destruct p, onProgress; cbn;
    unfold poll_body, wait_body, getStatus, getReport, bind; cbn;
    rewrite H; cbn; rewrite Hc; cbn;
    unfold report_calls, count; rewrite !filter_app, !length_app; cbn;
    rewrite !Nat.add_0_r;
    destruct (report_reply env sessionId _);
    rewrite <- ?app_assoc; cbn; eexists; reflexivity.
Qed.

End OneTurn.

(** ** Several turns *)

Lemma status_calls_attempt {S} p sessionId
    (onProgress : option (Payload -> S -> S)) interval st :
  status_calls (attempt_events p sessionId onProgress interval st) = 1%nat.
Proof. destruct onProgress; reflexivity. Qed.

Lemma report_calls_attempt {S} p sessionId
    (onProgress : option (Payload -> S -> S)) interval st :
  report_calls (attempt_events p sessionId onProgress interval st) = 0%nat.
Proof. destruct onProgress; reflexivity. Qed.

Lemma status_calls_attempts {S} p sessionId
    (onProgress : option (Payload -> S -> S)) interval rs :
  status_calls (flat_map (attempt_events p sessionId onProgress interval) rs)
  = List.length rs.
Proof.
  induction rs as [|st rs IH]; [reflexivity|].
  cbn [flat_map]. unfold status_calls in *. rewrite count_app, IH.
  fold (status_calls (attempt_events p sessionId onProgress interval st)).
  rewrite status_calls_attempt. reflexivity.
Qed.

Lemma report_calls_attempts {S} p sessionId
    (onProgress : option (Payload -> S -> S)) interval rs :
  report_calls (flat_map (attempt_events p sessionId onProgress interval) rs)
  = 0%nat.
Proof.
  induction rs as [|st rs IH]; [reflexivity|].
  cbn [flat_map]. unfold report_calls in *. rewrite count_app, IH.
  fold (report_calls (attempt_events p sessionId onProgress interval st)).
  rewrite report_calls_attempt. reflexivity.
Qed.

Lemma sleeps_attempts {S} p sessionId
    (onProgress : option (Payload -> S -> S)) interval rs :
  sleeps (flat_map (attempt_events p sessionId onProgress interval) rs)
  = repeat interval (List.length rs).
Proof.
  induction rs as [|st rs IH]; [reflexivity|].
  cbn [flat_map]. rewrite sleeps_app, IH.
  destruct onProgress; reflexivity.
Qed.

Lemma report_calls_after_attempts {S} p sessionId
    (onProgress : option (Payload -> S -> S)) interval t rs :
  report_calls
    (t ++ flat_map (attempt_events p sessionId onProgress interval) rs)
  = report_calls t.
Proof.
  unfold report_calls at 1. rewrite count_app.
  fold (report_calls
          (flat_map (attempt_events p sessionId onProgress interval) rs)).
  rewrite report_calls_attempts, Nat.add_0_r. reflexivity.
Qed.

Section SeveralTurns.

Context {S : Type}.
Variable env : Env S.
Variable p : Poller.
Variable sessionId : string.
Variable onProgress : option (Payload -> S -> S).
Variable interval : Z.

Lemma answers_cons w st rs :
  answers env sessionId w (st :: rs) ->
  status_reply env sessionId (status_calls (trace w)) = Ok st
  /\ forall c,
       answers env sessionId
         (mkWorld (trace w
                   ++ attempt_events p sessionId onProgress interval st) c)
         rs.
Proof.
  unfold answers. cbn [List.length seq map]. intros H.
  injection H as H0 H1. split; [exact H0|]. intros c.
  cbn [trace]. unfold status_calls in *. rewrite count_app.
  fold (status_calls (attempt_events p sessionId onProgress interval st)).
  rewrite status_calls_attempt, Nat.add_1_r. exact H1.
Qed.

(** As long as the answers are not terminal the loop goes on: every turn
    asks, notifies and waits. *)
Lemma iterate_in_flight :
  forall rs rest n w,
    Forall (fun st => terminal st = false) rs ->
    answers env sessionId w (rs ++ rest) ->
    exists c,
      let w' :=
        mkWorld
          (trace w
           ++ flat_map (attempt_events p sessionId onProgress interval) rs) c
      in
      iterate env p sessionId onProgress interval (List.length rs + n) w
      = iterate env p sessionId onProgress interval n w'
      /\ answers env sessionId w' rest.
Proof.
  induction rs as [|st rs IH]; intros rest n w Hall Hans.
  - exists (caller w). cbn. rewrite app_nil_r. destruct w; split;
      [reflexivity | exact Hans].
  - inversion Hall as [|? ? Hst Hrest]; subst.
    destruct (answers_cons _ _ _ Hans) as [Hreply Htail].
    destruct (body_in_flight env p sessionId onProgress interval w st
                Hreply Hst) as [c Hbody].
    cbn [List.length Nat.add iterate]. rewrite Hbody.
    destruct (IH rest n _ Hrest (Htail c)) as [c' [Hrun Hans']].
    exists c'. cbn [trace flat_map] in *.
    rewrite <- app_assoc in Hrun, Hans'. split; assumption.
Qed.

End SeveralTurns.

(** ** The poller: completion, failure, timeout *)

Section PollerClaims.

Context {S : Type}.
Variable env : Env S.
Variable p : Poller.
Variable sessionId : string.
Variable onProgress : option (Payload -> S -> S).
Variable interval maxAttempts : option Z.

Let every : Z := or_default interval (default_interval p).
Let budget : Z := or_default maxAttempts (default_maxAttempts p).

Lemma in_progress_all rs :
  Forall (fun st => in_progress st = true) rs ->
  Forall (fun st => terminal st = false) rs.
Proof.
  intros H. eapply Forall_impl; [|exact H].
  intros st. apply in_progress_not_terminal.
Qed.

(** Not-terminal answers followed by [completed], all within the budget:
    one report request right after the callback for [completed], and the
    poll ends the way that request ends. *)
Lemma run_completed w pre last :
  Forall (fun st => terminal st = false) pre ->
  status last = "completed" ->
  Z.of_nat (List.length (pre ++ [last])) <= budget ->
  answers env sessionId w (pre ++ [last]) ->
  let fetched := report_reply env sessionId (report_calls (trace w)) in
  exists c,
    run_poller env p sessionId onProgress interval maxAttempts w
    = (mkWorld
         (trace w
          ++ flat_map (attempt_events p sessionId onProgress every) pre
          ++ EvGetStatus sessionId (Ok last)
             :: callback_events onProgress (payload_of p last)
             ++ [EvGetReport sessionId fetched]) c,
       fetched).
Proof.
  intros Hpre Hlast Hlen Hans fetched.
  rewrite run_poller_iterate. fold every budget.
  rewrite length_app in Hlen. cbn [List.length] in Hlen.
  replace (Z.to_nat budget)
    with (List.length pre + Datatypes.S (Z.to_nat budget - List.length pre - 1))%nat
    by lia.
  destruct (iterate_in_flight env p sessionId onProgress every pre [last]
              (Datatypes.S (Z.to_nat budget - List.length pre - 1)) w Hpre Hans)
    as [c [Hrun Hans']].
  rewrite Hrun. clear Hrun.
  unfold answers in Hans'. cbn [List.length seq map] in Hans'.
  injection Hans' as Hreply.
  destruct (body_completed env p sessionId onProgress every
              (mkWorld
                 (trace w
                  ++ flat_map (attempt_events p sessionId onProgress every) pre)
                 c)
              last Hreply Hlast) as [c' Hbody].
  cbn [trace] in Hbody. rewrite report_calls_after_attempts in Hbody.
  fold fetched in Hbody.
  cbn [iterate]. rewrite Hbody.
  exists c'. rewrite <- app_assoc.
  destruct fetched; reflexivity.
Qed.

(** Not-terminal answers followed by [failed], all within the budget. *)
Lemma run_failed w pre last :
  Forall (fun st => terminal st = false) pre ->
  status last = "failed" ->
  Z.of_nat (List.length (pre ++ [last])) <= budget ->
  answers env sessionId w (pre ++ [last]) ->
  exists c,
    run_poller env p sessionId onProgress interval maxAttempts w
    = (mkWorld
         (trace w
          ++ flat_map (attempt_events p sessionId onProgress every) pre
          ++ EvGetStatus sessionId (Ok last)
             :: callback_events onProgress (payload_of p last)) c,
       Throw (failed_error last)).
Proof.
  intros Hpre Hlast Hlen Hans.
  rewrite run_poller_iterate. fold every budget.
  rewrite length_app in Hlen. cbn [List.length] in Hlen.
  replace (Z.to_nat budget)
    with (List.length pre + Datatypes.S (Z.to_nat budget - List.length pre - 1))%nat
    by lia.
  destruct (iterate_in_flight env p sessionId onProgress every pre [last]
              (Datatypes.S (Z.to_nat budget - List.length pre - 1)) w Hpre Hans)
    as [c [Hrun Hans']].
  rewrite Hrun. clear Hrun.
  unfold answers in Hans'. cbn [List.length seq map] in Hans'.
  injection Hans' as Hreply.
  destruct (body_failed env p sessionId onProgress every
              (mkWorld
                 (trace w
                  ++ flat_map (attempt_events p sessionId onProgress every) pre)
                 c)
              last Hreply Hlast) as [c' Hbody].
  cbn [iterate]. rewrite Hbody. cbn [trace].
  exists c'. rewrite <- app_assoc. reflexivity.
Qed.

(** A whole budget of not-terminal answers. *)
Lemma run_exhausted w rs :
  Forall (fun st => terminal st = false) rs ->
  Z.of_nat (List.length rs) = budget ->
  answers env sessionId w rs ->
  exists c,
    run_poller env p sessionId onProgress interval maxAttempts w
    = (mkWorld
         (trace w
          ++ flat_map (attempt_events p sessionId onProgress every) rs) c,
       Throw (timeout_error p)).
Proof.
  intros Hrs Hlen Hans.
  rewrite run_poller_iterate. fold every budget.
  replace (Z.to_nat budget) with (List.length rs + 0)%nat by lia.
  rewrite <- (app_nil_r rs) in Hans.
  destruct (iterate_in_flight env p sessionId onProgress every rs []
              0%nat w Hrs Hans) as [c [Hrun _]].
  rewrite Hrun. exists c. reflexivity.
Qed.

End PollerClaims.

(** C1.  For every sequence of status responses of length at most
    maxAttempts whose last element is [completed] and whose earlier elements
    are all [pending] or [processing], either poller requests the report
    exactly once, right after the single [completed] observation (only the
    progress callback for that observation comes in between), and ends the
    way the report request ends: it returns the fetched report. *)
Theorem C1_completed_fetches_report_once {S} (env : Env S) (p : Poller)
    (sessionId : string) (onProgress : option (Payload -> S -> S))
    (interval maxAttempts : option Z) (w : World S)
    (pre : list SessionStatusResponse) (last : SessionStatusResponse) :
  Forall (fun st => in_progress st = true) pre ->
  status last = "completed" ->
  Z.of_nat (List.length (pre ++ [last]))
    <= or_default maxAttempts (default_maxAttempts p) ->
  answers env sessionId w (pre ++ [last]) ->
  let fetched := report_reply env sessionId (report_calls (trace w)) in
  let every := or_default interval (default_interval p) in
  let run := run_poller env p sessionId onProgress interval maxAttempts w in
  (exists c,
     run = (mkWorld
              (trace w
               ++ flat_map (attempt_events p sessionId onProgress every) pre
               ++ EvGetStatus sessionId (Ok last)
                  :: callback_events onProgress (payload_of p last)
                  ++ [EvGetReport sessionId fetched]) c,
            fetched))
  /\ report_calls (trace (fst run)) = Datatypes.S (report_calls (trace w))
  /\ status_calls (trace (fst run))
     = (status_calls (trace w) + List.length (pre ++ [last]))%nat.
Proof.
  intros Hpre Hlast Hlen Hans fetched every run.
  destruct (run_completed env p sessionId onProgress interval maxAttempts
              w pre last (in_progress_all pre Hpre) Hlast Hlen Hans)
    as [c Hrun].
  fold run every fetched in Hrun.
  split; [exists c; exact Hrun|].
  rewrite Hrun. cbn [fst trace].
  rewrite app_assoc. split.
  - unfold report_calls at 1. rewrite count_app.
    fold (report_calls
            (trace w
             ++ flat_map (attempt_events p sessionId onProgress every) pre)).
    rewrite report_calls_after_attempts.
    change (EvGetStatus sessionId (Ok last)
              :: callback_events onProgress (payload_of p last)
              ++ [EvGetReport sessionId fetched])
      with ([EvGetStatus sessionId (Ok last)]
              ++ callback_events onProgress (payload_of p last)
              ++ [EvGetReport sessionId fetched]).
    rewrite !count_app, count_callback_events by reflexivity.
    cbn. lia.
  - unfold status_calls at 1. rewrite !count_app.
    fold (status_calls
            (flat_map (attempt_events p sessionId onProgress every) pre)).
    rewrite status_calls_attempts, length_app.
    change (EvGetStatus sessionId (Ok last)
              :: callback_events onProgress (payload_of p last)
              ++ [EvGetReport sessionId fetched])
      with ([EvGetStatus sessionId (Ok last)]
              ++ callback_events onProgress (payload_of p last)
              ++ [EvGetReport sessionId fetched]).
    rewrite !count_app, count_callback_events by reflexivity.
    unfold status_calls. cbn. lia.
Qed.

(** The scenario of the specification: upload accepted as session "abc",
    answers processing, processing, completed. *)
Lemma C1_processing_processing_completed :
  let run :=
    run_poller
      (scripted [st_processing; st_processing; st_completed] st_pending
                (Ok sample_report))
      Web "abc" (Some (fun _ u => u)) None None fresh in
  (exists c,
     run = (mkWorld
              [EvGetStatus "abc" (Ok st_processing);
               EvProgress (PStatus "processing"); EvSleep 1000;
               EvGetStatus "abc" (Ok st_processing);
               EvProgress (PStatus "processing"); EvSleep 1000;
               EvGetStatus "abc" (Ok st_completed);
               EvProgress (PStatus "completed");
               EvGetReport "abc" (Ok sample_report)] c,
            Ok sample_report))
  /\ report_calls (trace (fst run)) = 1%nat
  /\ status_calls (trace (fst run)) = 3%nat.
Proof.
  apply (C1_completed_fetches_report_once
           (scripted [st_processing; st_processing; st_completed] st_pending
                     (Ok sample_report))
           Web "abc" (Some (fun _ u => u)) None None fresh
           [st_processing; st_processing] st_completed).
  - repeat constructor.
  - reflexivity.
  - vm_compute. discriminate.
  - reflexivity.
Defined.

Lemma status_calls_after_attempts {S} p sessionId
    (onProgress : option (Payload -> S -> S)) interval t rs :
  status_calls
    (t ++ flat_map (attempt_events p sessionId onProgress interval) rs)
  = (status_calls t + List.length rs)%nat.
Proof.
  unfold status_calls at 1. rewrite count_app.
  fold (status_calls
          (flat_map (attempt_events p sessionId onProgress interval) rs)).
  rewrite status_calls_attempts. reflexivity.
Qed.

(** C2.  For every sequence of status responses whose first terminal
    element is [failed] (everything before it [pending] or [processing]),
    either poller raises the processing-failed error, an [ApiError] with
    code 500 whose message is the server's [error_message] when there is
    one, and "Processing failed" when the server sent none ([null], or the
    empty string, which [||] treats alike), and never requests the
    report. *)
Theorem C2_failed_raises_processing_failed {S} (env : Env S) (p : Poller)
    (sessionId : string) (onProgress : option (Payload -> S -> S))
    (interval maxAttempts : option Z) (w : World S)
    (pre : list SessionStatusResponse) (last : SessionStatusResponse) :
  Forall (fun st => in_progress st = true) pre ->
  status last = "failed" ->
  Z.of_nat (List.length (pre ++ [last]))
    <= or_default maxAttempts (default_maxAttempts p) ->
  answers env sessionId w (pre ++ [last]) ->
  let every := or_default interval (default_interval p) in
  let run := run_poller env p sessionId onProgress interval maxAttempts w in
  let message :=
    match error_message last with
    | Some m => if String.eqb m "" then "Processing failed" else m
    | None => "Processing failed"
    end in
  (exists c,
     run = (mkWorld
              (trace w
               ++ flat_map (attempt_events p sessionId onProgress every) pre
               ++ EvGetStatus sessionId (Ok last)
                  :: callback_events onProgress (payload_of p last)) c,
            Throw (mkError "ApiError" message (Some 500))))
  /\ report_calls (trace (fst run)) = report_calls (trace w).
Proof.
  intros Hpre Hlast Hlen Hans every run message.
  destruct (run_failed env p sessionId onProgress interval maxAttempts
              w pre last (in_progress_all pre Hpre) Hlast Hlen Hans)
    as [c Hrun].
  fold run every in Hrun.
  assert (Hmessage : failed_error last = mkError "ApiError" message (Some 500)).
  { subst message. unfold failed_error, ApiError.
    destruct (error_message last) as [m|]; cbn; [|reflexivity].
    destruct (String.eqb m ""); reflexivity. }
  rewrite Hmessage in Hrun.
  split; [exists c; exact Hrun|].
  rewrite Hrun. cbn [fst trace].
  rewrite app_assoc. unfold report_calls at 1. rewrite count_app.
  fold (report_calls
          (trace w
           ++ flat_map (attempt_events p sessionId onProgress every) pre)).
  rewrite report_calls_after_attempts.
  change (EvGetStatus sessionId (Ok last)
            :: callback_events onProgress (payload_of p last))
    with ([EvGetStatus sessionId (Ok last)]
            ++ callback_events onProgress (payload_of p last)).
  rewrite count_app, count_callback_events by reflexivity.
  cbn. lia.
Qed.

(** A failure that carries the server's message, and failures that carry
    none: no [error_message], or an empty one. *)
Lemma C2_failed_with_and_without_message :
  (let run :=
     run_poller
       (scripted [st_pending; st_failed (Some "Audio too short")] st_pending
                 (Ok sample_report))
       Mobile "abc" (Some (fun _ u => u)) None None fresh in
   (exists c,
      run = (mkWorld
               [EvGetStatus "abc" (Ok st_pending);
                EvProgress (PResponse st_pending); EvSleep 2000;
                EvGetStatus "abc" (Ok (st_failed (Some "Audio too short")));
                EvProgress (PResponse (st_failed (Some "Audio too short")))] c,
             Throw (mkError "ApiError" "Audio too short" (Some 500))))
   /\ report_calls (trace (fst run)) = 0%nat)
  /\ (let run :=
        run_poller
          (scripted [st_failed None] st_pending (Ok sample_report))
          Web "abc" (Some (fun _ u => u)) None None fresh in
      (exists c,
         run = (mkWorld
                  [EvGetStatus "abc" (Ok (st_failed None));
                   EvProgress (PStatus "failed")] c,
                Throw (mkError "ApiError" "Processing failed" (Some 500))))
      /\ report_calls (trace (fst run)) = 0%nat)
  /\ (let run :=
        run_poller
          (scripted [st_failed (Some "")] st_pending (Ok sample_report))
          Mobile "abc" None None None fresh in
      (exists c,
         run = (mkWorld [EvGetStatus "abc" (Ok (st_failed (Some "")))] c,
                Throw (mkError "ApiError" "Processing failed" (Some 500))))
      /\ report_calls (trace (fst run)) = 0%nat).
Proof.
  split; [|split].
  - apply (C2_failed_raises_processing_failed
             (scripted [st_pending; st_failed (Some "Audio too short")]
                       st_pending (Ok sample_report))
             Mobile "abc" (Some (fun _ u => u)) None None fresh
             [st_pending] (st_failed (Some "Audio too short"))).
    + repeat constructor.
    + reflexivity.
    + vm_compute. discriminate.
    + reflexivity.
  - apply (C2_failed_raises_processing_failed
             (scripted [st_failed None] st_pending (Ok sample_report))
             Web "abc" (Some (fun _ u => u)) None None fresh
             [] (st_failed None)).
    + constructor.
    + reflexivity.
    + vm_compute. discriminate.
    + reflexivity.
  - apply (C2_failed_raises_processing_failed
             (scripted [st_failed (Some "")] st_pending (Ok sample_report))
             Mobile "abc" None None None fresh
             [] (st_failed (Some ""))).
    + constructor.
    + reflexivity.
    + vm_compute. discriminate.
    + reflexivity.
Defined.

(** C3.  If maxAttempts consecutive status responses are all [pending] or
    [processing], either poller raises its timeout error after exactly
    maxAttempts status requests and no report request; the timeout error has
    code 408 and the processing-failed error has code 500, so a caller can
    tell them apart. *)
Theorem C3_timeout_after_budget {S} (env : Env S) (p : Poller)
    (sessionId : string) (onProgress : option (Payload -> S -> S))
    (interval maxAttempts : option Z) (w : World S)
    (rs : list SessionStatusResponse) :
  Forall (fun st => in_progress st = true) rs ->
  Z.of_nat (List.length rs) = or_default maxAttempts (default_maxAttempts p) ->
  answers env sessionId w rs ->
  let every := or_default interval (default_interval p) in
  let run := run_poller env p sessionId onProgress interval maxAttempts w in
  (exists c,
     run = (mkWorld
              (trace w
               ++ flat_map (attempt_events p sessionId onProgress every) rs) c,
            Throw (timeout_error p)))
  /\ Z.of_nat (status_calls (trace (fst run)))
     = Z.of_nat (status_calls (trace w))
       + or_default maxAttempts (default_maxAttempts p)
  /\ report_calls (trace (fst run)) = report_calls (trace w)
  /\ is_timeout (timeout_error p) = true
  /\ is_processing_failed (timeout_error p) = false
  /\ (forall st, is_processing_failed (failed_error st) = true
                 /\ is_timeout (failed_error st) = false).
Proof.
  intros Hrs Hlen Hans every run.
  destruct (run_exhausted env p sessionId onProgress interval maxAttempts
              w rs (in_progress_all rs Hrs) Hlen Hans) as [c Hrun].
  fold run every in Hrun.
  split; [exists c; exact Hrun|].
  rewrite Hrun. cbn [fst trace].
  rewrite status_calls_after_attempts, report_calls_after_attempts.
  repeat split; try (destruct p; reflexivity). lia.
Qed.

(** The scenario of the specification: 120 times pending, budget 120. *)
Lemma C3_pending_120_times :
  let run :=
    run_poller (scripted [] st_pending (Ok sample_report))
      Web "abc" None None (Some 120) fresh in
  (exists c,
     run = (mkWorld
              (flat_map (attempt_events (S := unit) Web "abc" None 1000)
                        (repeat st_pending 120)) c,
            Throw (ApiError "Processing timed out" 408)))
  /\ Z.of_nat (status_calls (trace (fst run))) = 120
  /\ report_calls (trace (fst run)) = 0%nat
  /\ is_timeout (ApiError "Processing timed out" 408) = true
  /\ is_processing_failed (ApiError "Processing timed out" 408) = false
  /\ (forall st, is_processing_failed (failed_error st) = true
                 /\ is_timeout (failed_error st) = false).
Proof.
  apply (C3_timeout_after_budget
           (scripted [] st_pending (Ok sample_report))
           Web "abc" None None (Some 120) fresh (repeat st_pending 120)).
  - apply Forall_forall. intros st Hin. apply repeat_spec in Hin.
    subst st. reflexivity.
  - reflexivity.
  - vm_compute. reflexivity.
Defined.

(** C10.  Called with maxAttempts 0 or negative, either poller raises its
    timeout error at once: the world is left as it was, so there is no
    status request, no report request and no progress callback. *)
Theorem C10_nonpositive_budget_times_out_at_once {S} (env : Env S)
    (p : Poller) (sessionId : string)
    (onProgress : option (Payload -> S -> S)) (interval : option Z)
    (maxAttempts : Z) (w : World S) :
  maxAttempts <= 0 ->
  run_poller env p sessionId onProgress interval (Some maxAttempts) w
  = (w, Throw (timeout_error p))
  /\ is_timeout (timeout_error p) = true.
Proof.
  intros Hle. rewrite run_poller_iterate. cbn [or_default].
  replace (Z.to_nat maxAttempts) with 0%nat by lia.
  split; [reflexivity | destruct p; reflexivity].
Qed.

(** Budget 0, even with a job that is already completed. *)
Lemma C10_zero_budget :
  run_poller (scripted [st_completed] st_completed (Ok sample_report))
    Web "abc" (Some (fun _ u => u)) None (Some 0) fresh
  = (fresh, Throw (ApiError "Processing timed out" 408))
  /\ is_timeout (ApiError "Processing timed out" 408) = true.
Proof.
  apply (C10_nonpositive_budget_times_out_at_once
           (scripted [st_completed] st_completed (Ok sample_report))
           Web "abc" (Some (fun _ u => u)) None 0 fresh).
  vm_compute. discriminate.
Defined.

(** ** Status values outside the declared union *)

(** C7, as stated, fails: a status outside
    {pending, processing, completed, failed} does not end the poll with an
    error.  Both pollers wait, ask again, and here return the report. *)
Lemma C7_unknown_status_not_fatal :
  run_poller (scripted [st_archived; st_completed] st_pending
                       (Ok sample_report))
    Web "abc" None None None fresh
  = (mkWorld [EvGetStatus "abc" (Ok st_archived); EvSleep 1000;
              EvGetStatus "abc" (Ok st_completed);
              EvGetReport "abc" (Ok sample_report)] tt,
     Ok sample_report)
  /\ run_poller (scripted [st_archived; st_completed] st_pending
                          (Ok sample_report))
       Mobile "abc" None None None fresh
     = (mkWorld [EvGetStatus "abc" (Ok st_archived); EvSleep 2000;
                 EvGetStatus "abc" (Ok st_completed);
                 EvGetReport "abc" (Ok sample_report)] tt,
        Ok sample_report).
Proof. split; vm_compute; reflexivity. Qed.

(** C7, amended.  A status that is neither [completed] nor [failed],
    whether or not it belongs to the declared union, is handled as still in
    progress: the poller notifies, waits and asks again.  When a whole
    budget of maxAttempts such answers goes by, the poll ends with the
    timeout error after exactly maxAttempts status requests. *)
Theorem C7_any_other_status_is_polled_again {S} (env : Env S) (p : Poller)
    (sessionId : string) (onProgress : option (Payload -> S -> S))
    (interval maxAttempts : option Z) (w : World S)
    (rs : list SessionStatusResponse) :
  Forall (fun st => status st <> "completed" /\ status st <> "failed") rs ->
  Z.of_nat (List.length rs) = or_default maxAttempts (default_maxAttempts p) ->
  answers env sessionId w rs ->
  let every := or_default interval (default_interval p) in
  exists c,
    run_poller env p sessionId onProgress interval maxAttempts w
    = (mkWorld
         (trace w
          ++ flat_map (attempt_events p sessionId onProgress every) rs) c,
       Throw (timeout_error p)).
Proof.
  intros Hrs Hlen Hans every.
  apply run_exhausted; try assumption.
  eapply Forall_impl; [|exact Hrs].
  intros st [Hc Hf]. unfold terminal.
  apply String.eqb_neq in Hc. apply String.eqb_neq in Hf.
  rewrite Hc, Hf. reflexivity.
Qed.

(** Two answers with an unknown status use up a budget of two. *)
Lemma C7_archived_twice_then_timeout :
  exists c,
    run_poller (scripted [] st_archived (Ok sample_report))
      Mobile "abc" (Some (fun _ u => u)) (Some 500) (Some 2) fresh
    = (mkWorld
         [EvGetStatus "abc" (Ok st_archived);
          EvProgress (PResponse st_archived); EvSleep 500;
          EvGetStatus "abc" (Ok st_archived);
          EvProgress (PResponse st_archived); EvSleep 500] c,
       Throw (ApiError "Timeout waiting for processing to complete" 408)).
Proof.
  apply (C7_any_other_status_is_polled_again
           (scripted [] st_archived (Ok sample_report))
           Mobile "abc" (Some (fun _ u => u)) (Some 500) (Some 2) fresh
           [st_archived; st_archived]).
  - repeat constructor; discriminate.
  - reflexivity.
  - reflexivity.
Defined.

(** ** Default parameters *)

(** C4, as stated, fails for [waitForCompletion]: with the optional
    parameters omitted and a job that stays pending it asks 60 times and
    waits 2000 ms each time, not 120 times at 1000 ms. *)
Lemma C4_waitForCompletion_defaults_differ :
  let run :=
    waitForCompletion (scripted [] st_pending (Ok sample_report))
      "abc" None None None fresh in
  status_calls (trace (fst run)) = 60%nat
  /\ sleeps (trace (fst run)) = repeat 2000 60
  /\ snd run
     = Throw (ApiError "Timeout waiting for processing to complete" 408).
Proof. vm_compute. repeat split. Qed.

(** C4, amended.  An omitted parameter takes the default of the poller
    called: interval 1000 ms and 120 attempts for [pollSessionStatus], 60
    attempts and 2000 ms for [waitForCompletion]. *)
Theorem C4_default_parameters {S} (env : Env S) (sessionId : string)
    (onProgress : option (Payload -> S -> S))
    (interval maxAttempts : option Z) :
  pollSessionStatus env sessionId onProgress interval maxAttempts
  = pollSessionStatus env sessionId onProgress
      (Some (or_default interval 1000)) (Some (or_default maxAttempts 120))
  /\ waitForCompletion env sessionId onProgress maxAttempts interval
     = waitForCompletion env sessionId onProgress
         (Some (or_default maxAttempts 60)) (Some (or_default interval 2000)).
Proof. split; reflexivity. Qed.

(** With everything omitted and a job that stays pending,
    [pollSessionStatus] asks 120 times, 1000 ms apart. *)
Example pollSessionStatus_defaults_observed :
  let run :=
    pollSessionStatus (scripted [] st_pending (Ok sample_report))
      "abc" None None None fresh in
  status_calls (trace (fst run)) = 120%nat
  /\ sleeps (trace (fst run)) = repeat 1000 120.
Proof. vm_compute. split; reflexivity. Qed.

(** ** Progress callbacks *)

Section Callbacks.

Context {S : Type}.
Variable env : Env S.
Variable p : Poller.
Variable sessionId : string.
Variable f : Payload -> S -> S.
Variable interval : Z.

Lemma terminal_true st :
  terminal st = true -> status st = "completed" \/ status st = "failed".
Proof.
  unfold terminal. intros H. apply orb_true_iff in H.
  destruct H as [H|H]; apply String.eqb_eq in H; auto.
Qed.


End Callbacks.

(** ** Cancellation *)

(** C6, as stated, fails: the caller raises its cancellation flag after 2
    of 120 attempts (its callback returns normally), and the poller still
    makes all 120 status requests and delivers the 118 remaining
    callbacks. *)
Lemma C6_poll_continues_after_cancellation :
  let run :=
    run_poller cancelling_env Web "abc" (Some count_late) None (Some 120)
      watching in
  cancelled (caller (fst run)) = true
  /\ status_calls (trace (fst run)) = 120%nat
  /\ progress_calls (trace (fst run)) = 120%nat
  /\ late_callbacks (caller (fst run)) = 118%nat.
Proof. vm_compute. repeat split. Qed.

Section IgnoresCaller.

Context {S : Type}.
Variables env env' : Env S.
Variable p : Poller.
Variable sessionId : string.
Variables f f' : Payload -> S -> S.
Variable interval : Z.

Hypothesis same_status :
  forall s k, status_reply env s k = status_reply env' s k.
Hypothesis same_report :
  forall s k, report_reply env s k = report_reply env' s k.

Lemma body_ignores_caller w w' :
  trace w = trace w' ->
  trace (fst (body env p sessionId (Some f) interval w))
  = trace (fst (body env' p sessionId (Some f') interval w'))
  /\ snd (body env p sessionId (Some f) interval w)
     = snd (body env' p sessionId (Some f') interval w').
Proof.
  intros Ht.
  destruct (status_reply env sessionId (status_calls (trace w)))
    as [st|e] eqn:Hreply.
  - assert (Hreply' :
      status_reply env' sessionId (status_calls (trace w')) = Ok st)
      by (rewrite <- Ht, <- same_status; exact Hreply).
    destruct (terminal st) eqn:Hterm.
    + apply terminal_true in Hterm. destruct Hterm as [Hc|Hf].
      * destruct (body_completed env p sessionId (Some f) interval w st
                    Hreply Hc) as [c Hb].
        destruct (body_completed env' p sessionId (Some f') interval w' st
                    Hreply' Hc) as [c' Hb'].
        rewrite Hb, Hb'. cbn. rewrite Ht, same_report. auto.
      * destruct (body_failed env p sessionId (Some f) interval w st
                    Hreply Hf) as [c Hb].
        destruct (body_failed env' p sessionId (Some f') interval w' st
                    Hreply' Hf) as [c' Hb'].
        rewrite Hb, Hb'. cbn. rewrite Ht. auto.
    + destruct (body_in_flight env p sessionId (Some f) interval w st
                  Hreply Hterm) as [c Hb].
      destruct (body_in_flight env' p sessionId (Some f') interval w' st
                  Hreply' Hterm) as [c' Hb'].
      rewrite Hb, Hb'. cbn. rewrite Ht. auto.
  - assert (Hreply' :
      status_reply env' sessionId (status_calls (trace w')) = Throw e)
      by (rewrite <- Ht, <- same_status; exact Hreply).
    rewrite (body_transport_error env p sessionId (Some f) interval w e
               Hreply).
    rewrite (body_transport_error env' p sessionId (Some f') interval w' e
               Hreply').
    cbn. rewrite Ht. auto.
Qed.

Lemma iterate_ignores_caller :
  forall n w w',
    trace w = trace w' ->
    trace (fst (iterate env p sessionId (Some f) interval n w))
    = trace (fst (iterate env' p sessionId (Some f') interval n w'))
    /\ snd (iterate env p sessionId (Some f) interval n w)
       = snd (iterate env' p sessionId (Some f') interval n w').
Proof.
  induction n as [|n IH]; intros w w' Ht.
  - cbn. auto.
  - cbn [iterate].
    destruct (body_ignores_caller w w' Ht) as [Htr Hres].
    destruct (body env p sessionId (Some f) interval w) as [w1 r1].
    destruct (body env' p sessionId (Some f') interval w') as [w1' r1'].
    cbn [fst snd] in Htr, Hres. subst r1'.
    destruct r1 as [[|r]|e]; cbn [fst snd]; auto.
Qed.

End IgnoresCaller.

(** ** The recording screen *)

Lemma phases_entered_app a b :
  phases_entered (a ++ b) = phases_entered a ++ phases_entered b.
Proof.
  induction a as [|e a IH]; [reflexivity|].
  destruct e; cbn; rewrite IH; reflexivity.
Qed.

Lemma stopRecording_trace audio w :
  trace (fst (stopRecording audio w)) = trace w.
Proof.
  unfold stopRecording, try_catch, bind, read, await, update, ret, throw.
  cbn. destruct (recordingRef (recorder (caller w))); cbn; [|reflexivity].
  destruct (stopAndUnloadAsync audio); cbn; [|reflexivity].
  destruct (setAudioModeAsync audio false); reflexivity.
Qed.

(** C8.  Starting a recording from [idle] when the microphone permission is
    denied leaves the phase at [idle] and sets the error to the (non-null)
    message of the permission error; no phase is set at all, in particular
    never [recording], and the recorder hook is left untouched. *)
Theorem C8_denied_permission_stays_idle (audio : Audio) (w : World Screen) :
  phase (caller w) = idle ->
  requestPermissionsAsync audio = Ok false ->
  let run := handleStartRecording audio w in
  snd run = Ok tt
  /\ phase (caller (fst run)) = idle
  /\ error (caller (fst run)) = Some "Microphone permission required"
  /\ trace (fst run)
     = trace w ++ [EvSetError None;
                   EvSetError (Some "Microphone permission required")]
  /\ phases_entered (trace (fst run)) = phases_entered (trace w)
  /\ recorder (caller (fst run)) = recorder (caller w).
Proof.
  intros Hidle Hdenied run. subst run.
  unfold handleStartRecording, startRecording, try_catch, bind, setError,
    await, throw, log, update.
  cbn. rewrite Hdenied. cbn.
  rewrite <- app_assoc, phases_entered_app. cbn. rewrite app_nil_r.
  repeat split; assumption.
Qed.

(** The screen as first rendered, on a device that refuses the microphone. *)
Lemma C8_denied_on_fresh_screen :
  let run := handleStartRecording denied_audio screen_at_rest in
  snd run = Ok tt
  /\ phase (caller (fst run)) = idle
  /\ error (caller (fst run)) = Some "Microphone permission required"
  /\ trace (fst run)
     = [EvSetError None; EvSetError (Some "Microphone permission required")]
  /\ phases_entered (trace (fst run)) = []
  /\ recorder (caller (fst run)) = initial_recorder.
Proof.
  apply (C8_denied_permission_stays_idle denied_audio screen_at_rest).
  - reflexivity.
  - reflexivity.
Defined.

(** C9.  When the recorder's stop yields no audio ([null], or an empty
    URI, which [!uri] treats alike), stopping sets the error
    "No recording found" and the phase [idle] and returns: neither
    [uploading] nor [processing] is entered, and nothing is uploaded. *)
Theorem C9_no_audio_goes_straight_to_idle (audio : Audio) (env : Env Screen)
    (w : World Screen) (u : option string) :
  snd (stopRecording audio w) = Ok u ->
  truthy u = false ->
  let run := handleStopRecording audio env w in
  snd run = Ok tt
  /\ phase (caller (fst run)) = idle
  /\ error (caller (fst run)) = Some "No recording found"
  /\ trace (fst run)
     = trace w ++ [EvSetError (Some "No recording found"); EvSetPhase idle]
  /\ phases_entered (trace (fst run)) = phases_entered (trace w) ++ [idle]
  /\ upload_calls (trace (fst run)) = upload_calls (trace w).
Proof.
  intros Hstop Hu run. subst run.
  pose proof (stopRecording_trace audio w) as Htr.
  unfold handleStopRecording, try_catch, bind.
  destruct (stopRecording audio w) as [w1 r]. cbn [fst snd] in *. subst r.
  assert (Hpath :
    (match u with
     | Some audioUri =>
         if String.eqb audioUri "" then
           setError (Some "No recording found") ;; setPhase idle
         else
           setPhase uploading ;;
           createResponse <- createSession env audioUri "audio/m4a" ;;
           setPhase processing ;;
           report <- waitForCompletion env (session_id createResponse)
                       (Some onProcessingProgress) None None ;;
           navigateReport report ;;
           setPhase idle ;;
           resetRecording
     | None => setError (Some "No recording found") ;; setPhase idle
     end) w1
    = (setError (Some "No recording found") ;; setPhase idle) w1).
  { destruct u as [s|]; [|reflexivity].
    cbn in Hu. apply negb_false_iff in Hu. rewrite Hu. reflexivity. }
  unfold bind in Hpath. rewrite Hpath. clear Hpath.
  unfold setError, setPhase, bind, log, update.
  cbn [fst snd trace caller phase error]. rewrite Htr.
  rewrite <- app_assoc. cbn [app].
  rewrite phases_entered_app. unfold upload_calls. rewrite count_app.
  repeat split. cbn. lia.
Qed.

(** Stop pressed while the hook holds no live recording. *)
Lemma C9_stop_without_recording :
  let run :=
    handleStopRecording working_audio
      (scripted [st_completed] st_completed (Ok sample_report))
      screen_at_rest in
  snd run = Ok tt
  /\ phase (caller (fst run)) = idle
  /\ error (caller (fst run)) = Some "No recording found"
  /\ trace (fst run)
     = [EvSetError (Some "No recording found"); EvSetPhase idle]
  /\ phases_entered (trace (fst run)) = [idle]
  /\ upload_calls (trace (fst run)) = 0%nat.
Proof.
  apply (C9_no_audio_goes_straight_to_idle working_audio
           (scripted [st_completed] st_completed (Ok sample_report))
           screen_at_rest None).
  - reflexivity.
  - reflexivity.
Defined.

(** A whole cycle on a working device: record, stop, upload, poll, show
    the report, back to [idle]. *)
Example record_upload_and_report :
  let started := fst (handleStartRecording working_audio screen_at_rest) in
  let run := handleStopRecording working_audio serving started in
  snd run = Ok tt
  /\ trace (fst run)
     = [EvSetError None; EvSetPhase recording; EvSetPhase uploading;
        EvCreateSession "file:///recording.m4a" "audio/m4a"
          (Ok (mkCreated "abc" "pending"));
        EvSetPhase processing;
        EvGetStatus "abc" (Ok st_processing);
        EvProgress (PResponse st_processing); EvSleep 2000;
        EvGetStatus "abc" (Ok st_completed);
        EvProgress (PResponse st_completed);
        EvGetReport "abc" (Ok sample_report);
        EvNavigateReport sample_report; EvSetPhase idle]
  /\ phase (caller (fst run)) = idle
  /\ error (caller (fst run)) = None
  /\ processingStatus (caller (fst run)) = "completed".
Proof. vm_compute. repeat split. Qed.

(** * More of the client *)

(** ** Every poll has one of five shapes *)

Section PollShape.

Context {S : Type}.
Variable env : Env S.
Variable p : Poller.
Variable sessionId : string.
Variable onProgress : option (Payload -> S -> S).
Variable interval : Z.

Lemma iterate_log :
  forall n w,
    exists evs c res,
      iterate env p sessionId onProgress interval n w
      = (mkWorld (trace w ++ evs) c, res)
      /\ poll_log p sessionId onProgress interval n evs res.
Proof.
  induction n as [|n IH]; intros w.
  - exists [], (caller w), (Throw (timeout_error p)).
    cbn. rewrite app_nil_r. destruct w. split; [reflexivity|constructor].
  - cbn [iterate].
    destruct (status_reply env sessionId (status_calls (trace w)))
      as [st|e] eqn:Hreply.
    + destruct (terminal st) eqn:Hterm.
      * apply terminal_true in Hterm. destruct Hterm as [Hc|Hf].
        -- destruct (body_completed env p sessionId onProgress interval w st
                       Hreply Hc) as [c Hbody].
           rewrite Hbody.
           destruct (report_reply env sessionId (report_calls (trace w)))
             as [r|e] eqn:Hrep;
             (eexists _, c, _; split; [reflexivity|]).
           ++ apply (poll_job_completed p sessionId onProgress interval n st
                       (Ok r) Hc).
           ++ apply (poll_job_completed p sessionId onProgress interval n st
                       (Throw e) Hc).
        -- destruct (body_failed env p sessionId onProgress interval w st
                       Hreply Hf) as [c Hbody].
           rewrite Hbody.
           eexists _, c, _. split; [reflexivity|].
           apply poll_job_failed. exact Hf.
      * destruct (body_in_flight env p sessionId onProgress interval w st
                    Hreply Hterm) as [c Hbody].
        rewrite Hbody.
        destruct (IH (mkWorld
                        (trace w
                         ++ attempt_events p sessionId onProgress interval st)
                        c))
          as [evs [c' [res [Hrun Hlog]]]].
        rewrite Hrun. cbn [trace].
        exists (attempt_events p sessionId onProgress interval st ++ evs),
               c', res.
        split; [rewrite app_assoc; reflexivity|].
        apply poll_goes_on; assumption.
    + rewrite (body_transport_error env p sessionId onProgress interval w e
                 Hreply).
      eexists _, (caller w), _. split; [reflexivity|].
      apply poll_request_failed.
Qed.

End PollShape.

Lemma run_poller_log {S} (env : Env S) p sessionId
    (onProgress : option (Payload -> S -> S)) interval maxAttempts w :
  exists evs c res,
    run_poller env p sessionId onProgress interval maxAttempts w
    = (mkWorld (trace w ++ evs) c, res)
    /\ poll_log p sessionId onProgress
         (or_default interval (default_interval p))
         (Z.to_nat (or_default maxAttempts (default_maxAttempts p)))
         evs res.
Proof. rewrite run_poller_iterate. apply iterate_log. Qed.

(** ** What the caller's state goes through *)

Section CallerState.

Context {S : Type}.
Variable env : Env S.
Variable p : Poller.
Variable sessionId : string.
Variable f : Payload -> S -> S.
Variable interval : Z.

Lemma body_exact w :
  body env p sessionId (Some f) interval w
  = match status_reply env sessionId (status_calls (trace w)) with
    | Throw e =>
        (mkWorld (trace w ++ [EvGetStatus sessionId (Throw e)]) (caller w),
         Throw e)
    | Ok st =>
        let told := f (payload_of p st) (caller w) in
        if String.eqb (status st) "completed" then
          let answer := report_reply env sessionId (report_calls (trace w)) in
          (mkWorld (trace w ++ [EvGetStatus sessionId (Ok st);
                                EvProgress (payload_of p st);
                                EvGetReport sessionId answer]) told,
           match answer with
           | Ok r => Ok (Return r)
           | Throw e => Throw e
           end)
        else if String.eqb (status st) "failed" then
          (mkWorld (trace w ++ [EvGetStatus sessionId (Ok st);
                                EvProgress (payload_of p st)]) told,
           Throw (failed_error st))
        else
          (mkWorld (trace w ++ attempt_events p sessionId (Some f) interval st)
                   (while_waiting env (count is_sleep (trace w)) told),
           Ok Continue)
    end.
Proof.
  destruct p; cbn;
    unfold poll_body, wait_body, getStatus, getReport, sleep, bind; cbn;
    (destruct (status_reply env sessionId (status_calls (trace w)))
       as [st|e]; cbn; [|reflexivity]);
    (destruct (String.eqb (status st) "completed") eqn:Hc; cbn;
     [ unfold report_calls, count;
       rewrite !filter_app, !length_app; cbn; rewrite !Nat.add_0_r;
       destruct (report_reply env sessionId _);
       rewrite <- ?app_assoc; reflexivity
     | destruct (String.eqb (status st) "failed") eqn:Hf; cbn;
       rewrite <- ?app_assoc; cbn; [reflexivity|];
       unfold count; rewrite !filter_app, !length_app; cbn;
       rewrite !Nat.add_0_r; reflexivity ]).
Qed.

Lemma iterate_replay :
  forall n w,
    exists evs res,
      iterate env p sessionId (Some f) interval n w
      = (mkWorld (trace w ++ evs)
                 (replay env f evs (count is_sleep (trace w)) (caller w)),
         res).
Proof.
  induction n as [|n IH]; intros w.
  - exists [], (Throw (timeout_error p)). cbn. rewrite app_nil_r.
    destruct w; reflexivity.
  - cbn [iterate]. rewrite body_exact.
    destruct (status_reply env sessionId (status_calls (trace w))) as [st|e].
    + cbn zeta.
      destruct (String.eqb (status st) "completed").
      * destruct (report_reply env sessionId (report_calls (trace w)))
          as [r|e] eqn:Hrep.
        -- exists [EvGetStatus sessionId (Ok st);
                   EvProgress (payload_of p st);
                   EvGetReport sessionId (Ok r)], (Ok r).
           reflexivity.
        -- exists [EvGetStatus sessionId (Ok st);
                   EvProgress (payload_of p st);
                   EvGetReport sessionId (Throw e)], (Throw e).
           reflexivity.
      * destruct (String.eqb (status st) "failed").
        -- exists [EvGetStatus sessionId (Ok st);
                   EvProgress (payload_of p st)], (Throw (failed_error st)).
           reflexivity.
        -- match goal with
           | |- context [iterate _ _ _ _ _ n ?w1] =>
               destruct (IH w1) as [evs [res Hrun]]; rewrite Hrun
           end.
           cbn [trace caller].
           exists (attempt_events p sessionId (Some f) interval st ++ evs), res.
           rewrite <- app_assoc. cbn.
           unfold count. rewrite filter_app, length_app. cbn.
           rewrite Nat.add_1_r. reflexivity.
    + exists [EvGetStatus sessionId (Throw e)], (Throw e). reflexivity.
Qed.

End CallerState.


(** A callback that writes down what it is handed ends up with the
    statuses observed, in order: for [pollSessionStatus] the status
    strings, for [waitForCompletion] the responses. *)
Example callback_receives_each_observed_value :
  caller (fst (run_poller
                 (scripted [st_pending; st_processing; st_completed]
                           st_pending (Ok sample_report))
                 Web "abc" (Some (fun q heard => heard ++ [q])) None None
                 (mkWorld [] [])))
  = [PStatus "pending"; PStatus "processing"; PStatus "completed"]
  /\ caller (fst (run_poller
                    (scripted [st_pending; st_failed (Some "Audio too short")]
                              st_pending (Ok sample_report))
                    Mobile "abc" (Some (fun q heard => heard ++ [q])) None None
                    (mkWorld [] [])))
     = [PResponse st_pending;
        PResponse (st_failed (Some "Audio too short"))].
Proof. split; vm_compute; reflexivity. Qed.

(** C6, amended.  The pollers take no cancellation parameter.  With
    progress callbacks that return normally and leave the response they
    are handed as it is (every callback of this model), a cancellation
    requested by the caller in its own state (a flag raised during a wait,
    in the callback, or before the poll starts) does not stop the poll: it
    makes exactly the status requests, delivers exactly the callbacks,
    waits exactly as long and ends exactly the same way as the poll of a
    caller who requests nothing; and in each of the two polls every one of
    those callbacks is really applied, in order, to that caller's state.
    What a callback that throws or that writes to the response does to the
    poll is outside this statement. *)
Theorem C6_cancellation_request_is_ignored {S} (env env' : Env S)
    (p : Poller) (sessionId : string) (f f' : Payload -> S -> S)
    (interval maxAttempts : option Z) (w w' : World S) :
  (forall s k, status_reply env s k = status_reply env' s k) ->
  (forall s k, report_reply env s k = report_reply env' s k) ->
  trace w = trace w' ->
  let run := run_poller env p sessionId (Some f) interval maxAttempts w in
  let run' := run_poller env' p sessionId (Some f') interval maxAttempts w' in
  exists evs,
    trace (fst run) = trace w ++ evs
    /\ trace (fst run') = trace w' ++ evs
    /\ snd run = snd run'
    /\ caller (fst run) = replay env f evs (count is_sleep (trace w)) (caller w)
    /\ caller (fst run')
       = replay env' f' evs (count is_sleep (trace w')) (caller w').
Proof.
  intros Hs Hr Ht run run'. subst run run'. rewrite !run_poller_iterate.
  set (every := or_default interval (default_interval p)).
  set (n := Z.to_nat (or_default maxAttempts (default_maxAttempts p))).
  destruct (iterate_ignores_caller env env' p sessionId f f' every Hs Hr
              n w w' Ht) as [Htrace Hres].
  destruct (iterate_replay env p sessionId f every n w) as [evs [res Hrun]].
  destruct (iterate_replay env' p sessionId f' every n w')
    as [evs' [res' Hrun']].
  rewrite Hrun, Hrun' in *. cbn [fst snd trace caller] in *.
  rewrite <- Ht in Htrace. apply app_inv_head in Htrace. subst evs'.
  exists evs. repeat split; try reflexivity. exact Hres.
Qed.

(** The poll of a caller who never cancels, next to the poll of a caller
    who raises its flag after two attempts and counts what it still
    receives: the same 120 requests and callbacks, and 118 of them counted
    as late. *)
Lemma C6_cancelling_and_patient_caller_agree :
  let run :=
    run_poller (scripted [] st_pending (Ok sample_report))
      Web "abc" (Some (fun _ s => s)) None None watching in
  let run' :=
    run_poller cancelling_env
      Web "abc" (Some count_late) None None watching in
  exists evs,
    trace (fst run) = trace watching ++ evs
    /\ trace (fst run') = trace watching ++ evs
    /\ snd run = snd run'
    /\ caller (fst run)
       = replay (scripted [] st_pending (Ok sample_report))
           (fun _ s => s) evs (count is_sleep (trace watching))
           (caller watching)
    /\ caller (fst run')
       = replay cancelling_env count_late evs
           (count is_sleep (trace watching)) (caller watching).
Proof.
  apply (C6_cancellation_request_is_ignored
           (scripted [] st_pending (Ok sample_report)) cancelling_env
           Web "abc" (fun _ s => s) count_late None None watching watching).
  - intros s k. cbn. destruct k; reflexivity.
  - intros s k. reflexivity.
  - reflexivity.
Defined.

(** ** What every poll keeps to *)

Lemma last_observed_cons_attempt {S} p sessionId
    (onProgress : option (Payload -> S -> S)) interval st evs :
  last_observed (attempt_events p sessionId onProgress interval st ++ evs)
  = match last_observed evs with
    | Some st' => Some st'
    | None => Some st
    end.
Proof.
  unfold last_observed. rewrite observed_app.
  replace (observed (attempt_events p sessionId onProgress interval st))
    with [st] by (destruct onProgress; reflexivity).
  cbn [app map]. destruct (observed evs) as [|st' rest] eqn:Hobs.
  - reflexivity.
  - cbn [map]. change (List.last (Some st :: Some st' :: map Some rest) None)
      with (List.last (Some st' :: map Some rest) None).
    assert (H : exists x, List.last (Some st' :: map Some rest) None = Some x).
    { clear. revert st'. induction rest as [|a rest IH]; intros st'.
      - exists st'. reflexivity.
      - destruct (IH a) as [x Hx]. exists x. exact Hx. }
    destruct H as [x Hx]. rewrite Hx. reflexivity.
Qed.

Lemma poll_log_facts {S} p sessionId
    (onProgress : option (Payload -> S -> S)) interval n evs res :
  poll_log p sessionId onProgress interval n evs res ->
  (status_calls evs <= n)%nat
  /\ report_calls evs = (if completed_last evs then 1 else 0)%nat
  /\ upload_calls evs = 0%nat
  /\ Forall (fun ms => ms = interval) (sleeps evs)
  /\ (List.length (sleeps evs) <= status_calls evs)%nat.
Proof.
  induction 1 as [ | n e | n st Hf | n st answer Hc | n st evs res Ht Hlog IH ].
  - cbn. repeat split; auto.
  - cbn. repeat split; auto; lia.
  - destruct onProgress; cbn; unfold completed_last; cbn; rewrite Hf; cbn;
      repeat split; auto; lia.
  - destruct onProgress; cbn; unfold completed_last; cbn; rewrite Hc; cbn;
      repeat split; auto; lia.
  - destruct IH as [Hs [Hr [Hu [Hsl Hle]]]].
    unfold status_calls, report_calls, upload_calls in *.
    rewrite !count_app, sleeps_app.
    fold (status_calls (attempt_events p sessionId onProgress interval st)).
    fold (report_calls (attempt_events p sessionId onProgress interval st)).
    rewrite status_calls_attempt, report_calls_attempt, Hr, Hu.
    unfold completed_last in *. rewrite last_observed_cons_attempt.
    apply terminal_false in Ht as Ht'. destruct Ht' as [Hnc Hnf].
    assert (Hup : count is_upload
                    (attempt_events p sessionId onProgress interval st) = 0%nat)
      by (destruct onProgress; reflexivity).
    assert (Hsleep : sleeps (attempt_events p sessionId onProgress interval st)
                     = [interval])
      by (destruct onProgress; reflexivity).
    rewrite Hup, Hsleep. cbn [app List.length].
    repeat split.
    + lia.
    + destruct (last_observed evs); [reflexivity|]. rewrite Hnc. reflexivity.
    + constructor; [reflexivity | exact Hsl].
    + lia.
Qed.

Lemma poll_log_resolved {S} p sessionId
    (onProgress : option (Payload -> S -> S)) interval n evs res r :
  poll_log p sessionId onProgress interval n evs res ->
  res = Ok r ->
  (exists st, last_observed evs = Some st /\ status st = "completed")
  /\ (exists before, evs = before ++ [EvGetReport sessionId (Ok r)]).
Proof.
  induction 1 as [ | n e | n st Hf | n st answer Hc | n st evs res Ht Hlog IH ];
    intros Hres; try discriminate Hres.
  - subst answer. split.
    + exists st. split; [|exact Hc]. destruct onProgress; reflexivity.
    + exists (EvGetStatus sessionId (Ok st)
                :: callback_events onProgress (payload_of p st)).
      reflexivity.
  - destruct (IH Hres) as [[st' [Hl Hc]] [before Hev]]. split.
    + exists st'. rewrite last_observed_cons_attempt, Hl. auto.
    + exists (attempt_events p sessionId onProgress interval st ++ before).
      rewrite Hev, app_assoc. reflexivity.
Qed.

(** X1.  Whatever the backend answers, one poll makes at most maxAttempts
    status requests (none when maxAttempts is negative), requests the
    report exactly when the last status it received was [completed] and
    never otherwise, never uploads, waits exactly the configured interval
    every time it waits, and never waits more often than it asks. *)
Theorem poll_keeps_within_budget {S} (env : Env S) (p : Poller)
    (sessionId : string) (onProgress : option (Payload -> S -> S))
    (interval maxAttempts : option Z) (w : World S) :
  exists evs,
    trace (fst (run_poller env p sessionId onProgress interval maxAttempts w))
    = trace w ++ evs
    /\ Z.of_nat (status_calls evs)
       <= Z.max 0 (or_default maxAttempts (default_maxAttempts p))
    /\ report_calls evs = (if completed_last evs then 1 else 0)%nat
    /\ upload_calls evs = 0%nat
    /\ Forall (fun ms => ms = or_default interval (default_interval p))
              (sleeps evs)
    /\ (List.length (sleeps evs) <= status_calls evs)%nat.
Proof.
  destruct (run_poller_log env p sessionId onProgress interval maxAttempts w)
    as [evs [c [res [Hrun Hlog]]]].
  rewrite Hrun. exists evs. cbn [fst trace].
  destruct (poll_log_facts _ _ _ _ _ _ _ Hlog) as [Hs [Hr [Hu [Hsl Hle]]]].
  repeat split; try assumption. lia.
Qed.

(** X2.  A poll resolves with a report only if the last status it received
    was [completed], and then the last thing it did was the report request
    that produced that very report. *)
Theorem poll_resolves_only_on_completed {S} (env : Env S) (p : Poller)
    (sessionId : string) (onProgress : option (Payload -> S -> S))
    (interval maxAttempts : option Z) (w : World S) (r : SessionResponse) :
  snd (run_poller env p sessionId onProgress interval maxAttempts w) = Ok r ->
  exists before st,
    trace (fst (run_poller env p sessionId onProgress interval maxAttempts w))
    = trace w ++ before ++ [EvGetReport sessionId (Ok r)]
    /\ last_observed before = Some st
    /\ status st = "completed".
Proof.
  destruct (run_poller_log env p sessionId onProgress interval maxAttempts w)
    as [evs [c [res [Hrun Hlog]]]].
  rewrite Hrun. cbn [fst snd trace]. intros Hres.
  destruct (poll_log_resolved _ _ _ _ _ _ _ r Hlog Hres)
    as [[st [Hl Hc]] [before Hev]].
  exists before, st. subst evs. split; [reflexivity|]. split; [|exact Hc].
  unfold last_observed in *. rewrite observed_app in Hl. cbn in Hl.
  rewrite app_nil_r in Hl. exact Hl.
Qed.

Lemma poll_resolves_only_on_completed_example :
  exists before st,
    trace (fst (run_poller
                  (scripted [st_pending; st_completed] st_pending
                            (Ok sample_report))
                  Mobile "abc" None None None fresh))
    = trace fresh ++ before ++ [EvGetReport "abc" (Ok sample_report)]
    /\ last_observed before = Some st
    /\ status st = "completed".
Proof.
  apply (poll_resolves_only_on_completed
           (scripted [st_pending; st_completed] st_pending (Ok sample_report))
           Mobile "abc" None None None fresh sample_report).
  vm_compute. reflexivity.
Defined.

Lemma run_request_error {S} (env : Env S) (p : Poller)
    (sessionId : string) (onProgress : option (Payload -> S -> S))
    (interval maxAttempts : option Z) (w : World S)
    (pre : list SessionStatusResponse) (e : JsError) :
  Forall (fun st => terminal st = false) pre ->
  answers env sessionId w pre ->
  status_reply env sessionId (status_calls (trace w) + List.length pre)
  = Throw e ->
  Z.of_nat (List.length pre) < or_default maxAttempts (default_maxAttempts p) ->
  exists c,
    run_poller env p sessionId onProgress interval maxAttempts w
    = (mkWorld
         (trace w
          ++ flat_map (attempt_events p sessionId onProgress
                         (or_default interval (default_interval p))) pre
          ++ [EvGetStatus sessionId (Throw e)]) c,
       Throw e).
Proof.
  intros Hpre Hans Herr Hlen.
  rewrite run_poller_iterate.
  set (every := or_default interval (default_interval p)).
  set (budget := or_default maxAttempts (default_maxAttempts p)) in *.
  replace (Z.to_nat budget)
    with (List.length pre + Datatypes.S (Z.to_nat budget - List.length pre - 1))%nat
    by lia.
  rewrite <- (app_nil_r pre) in Hans.
  destruct (iterate_in_flight env p sessionId onProgress every pre []
              (Datatypes.S (Z.to_nat budget - List.length pre - 1)) w Hpre Hans)
    as [c [Hrun _]].
  rewrite Hrun. clear Hrun. cbn [iterate].
  rewrite (body_transport_error env p sessionId onProgress every _ e).
  - exists c. cbn [trace caller]. rewrite <- app_assoc. reflexivity.
  - cbn [trace]. rewrite status_calls_after_attempts. exact Herr.
Qed.

(** X3.  A status request that fails (network error, HTTP error) ends the
    poll at once with that very error: no retry, no callback for that
    attempt, no wait, no report request. *)
Theorem poll_request_error_propagates {S} (env : Env S) (p : Poller)
    (sessionId : string) (onProgress : option (Payload -> S -> S))
    (interval maxAttempts : option Z) (w : World S)
    (pre : list SessionStatusResponse) (e : JsError) :
  Forall (fun st => terminal st = false) pre ->
  answers env sessionId w pre ->
  status_reply env sessionId (status_calls (trace w) + List.length pre)
  = Throw e ->
  Z.of_nat (List.length pre) < or_default maxAttempts (default_maxAttempts p) ->
  exists c,
    run_poller env p sessionId onProgress interval maxAttempts w
    = (mkWorld
         (trace w
          ++ flat_map (attempt_events p sessionId onProgress
                         (or_default interval (default_interval p))) pre
          ++ [EvGetStatus sessionId (Throw e)]) c,
       Throw e).
Proof. apply run_request_error. Qed.

Lemma poll_request_error_propagates_example :
  exists c,
    run_poller
      (mkEnv (fun _ k => if Nat.eqb k 1
                         then Throw (ApiError "Service Unavailable" 503)
                         else Ok st_pending)
             (fun _ _ => Ok sample_report)
             (fun _ _ _ => Throw (Error "Network request failed"))
             (fun _ u => u))
      Web "abc" (Some (fun _ u => u)) None None fresh
    = (mkWorld
         [EvGetStatus "abc" (Ok st_pending); EvProgress (PStatus "pending");
          EvSleep 1000;
          EvGetStatus "abc" (Throw (ApiError "Service Unavailable" 503))] c,
       Throw (ApiError "Service Unavailable" 503)).
Proof.
  apply (poll_request_error_propagates
           (mkEnv (fun _ k => if Nat.eqb k 1
                              then Throw (ApiError "Service Unavailable" 503)
                              else Ok st_pending)
                  (fun _ _ => Ok sample_report)
                  (fun _ _ _ => Throw (Error "Network request failed"))
                  (fun _ u => u))
           Web "abc" (Some (fun _ u => u)) None None fresh [st_pending]).
  - repeat constructor.
  - reflexivity.
  - reflexivity.
  - vm_compute. reflexivity.
Defined.

(** X4.  During a poll the caller's state changes only through the progress
    callback and through the caller's own code running during the waits,
    in the order of the log; the poller itself never writes to it. *)
Theorem poll_touches_caller_only_by_callback {S} (env : Env S) (p : Poller)
    (sessionId : string) (f : Payload -> S -> S)
    (interval maxAttempts : option Z) (w : World S) :
  exists evs,
    trace (fst (run_poller env p sessionId (Some f) interval maxAttempts w))
    = trace w ++ evs
    /\ caller (fst (run_poller env p sessionId (Some f) interval maxAttempts w))
       = replay env f evs (count is_sleep (trace w)) (caller w).
Proof.
  rewrite run_poller_iterate.
  destruct (iterate_replay env p sessionId f
              (or_default interval (default_interval p))
              (Z.to_nat (or_default maxAttempts (default_maxAttempts p))) w)
    as [evs [res Hrun]].
  rewrite Hrun. exists evs. split; reflexivity.
Qed.

(** ** Starting a recording *)

(** X5.  When the permission is granted and the platform calls succeed,
    starting a recording clears the error, sets the phase [recording], and
    leaves the hook recording: not paused, duration 0, no URI yet, the
    live recording and the metering timer held in their refs. *)
Theorem start_succeeds_into_recording (audio : Audio) (w : World Screen) :
  requestPermissionsAsync audio = Ok true ->
  setAudioModeAsync audio true = Ok tt ->
  prepareToRecordAsync audio = Ok tt ->
  startAsync audio = Ok tt ->
  let run := handleStartRecording audio w in
  snd run = Ok tt
  /\ trace (fst run) = trace w ++ [EvSetError None; EvSetPhase recording]
  /\ phase (caller (fst run)) = recording
  /\ error (caller (fst run)) = None
  /\ state (recorder (caller (fst run)))
     = mkRecordingState true false 0 None
  /\ recordingRef (recorder (caller (fst run))) = true
  /\ intervalRef (recorder (caller (fst run))) = true.
Proof.
  intros Hperm Hmode Hprep Hstart run. subst run.
  unfold handleStartRecording, startRecording, try_catch, bind, setError,
    setPhase, await, throw, log, update.
  cbn. rewrite Hperm. cbn. rewrite Hmode, Hprep, Hstart. cbn.
  rewrite <- app_assoc. repeat split.
Qed.

Lemma start_succeeds_into_recording_example :
  let run := handleStartRecording working_audio screen_at_rest in
  snd run = Ok tt
  /\ trace (fst run) = [EvSetError None; EvSetPhase recording]
  /\ phase (caller (fst run)) = recording
  /\ error (caller (fst run)) = None
  /\ state (recorder (caller (fst run)))
     = mkRecordingState true false 0 None
  /\ recordingRef (recorder (caller (fst run))) = true
  /\ intervalRef (recorder (caller (fst run))) = true.
Proof.
  apply (start_succeeds_into_recording working_audio screen_at_rest);
    reflexivity.
Defined.

(** X6.  Whatever makes the hook's [startRecording] fail, the handler does
    not reject: it shows that error's message, sets no phase, and leaves
    the recorder hook exactly as it was (nothing is held, nothing is
    marked as recording). *)
Theorem start_failure_changes_only_the_error (audio : Audio)
    (w : World Screen) (e : JsError) :
  snd (startRecording audio w) = Throw e ->
  let run := handleStartRecording audio w in
  snd run = Ok tt
  /\ trace (fst run)
     = trace w ++ [EvSetError None; EvSetError (Some (err_message e))]
  /\ phase (caller (fst run)) = phase (caller w)
  /\ error (caller (fst run)) = Some (err_message e)
  /\ recorder (caller (fst run)) = recorder (caller w).
Proof.
  intros Hfail run. subst run. revert Hfail.
  unfold handleStartRecording, startRecording, try_catch, bind, setError,
    setPhase, await, throw, log, update.
  cbn.
  destruct (requestPermissionsAsync audio) as [[|]|e0]; cbn.
  - destruct (setAudioModeAsync audio true) as [[]|e1]; cbn.
    + destruct (prepareToRecordAsync audio) as [[]|e2]; cbn.
      * destruct (startAsync audio) as [[]|e3]; cbn.
        -- discriminate.
        -- intros [= <-]. rewrite <- app_assoc. repeat split.
      * intros [= <-]. rewrite <- app_assoc. repeat split.
    + intros [= <-]. rewrite <- app_assoc. repeat split.
  - intros [= <-]. rewrite <- app_assoc. repeat split.
  - intros [= <-]. rewrite <- app_assoc. repeat split.
Qed.

Lemma start_failure_changes_only_the_error_example :
  let run := handleStartRecording broken_audio screen_at_rest in
  snd run = Ok tt
  /\ trace (fst run)
     = [EvSetError None; EvSetError (Some "Recorder is already prepared")]
  /\ phase (caller (fst run)) = idle
  /\ error (caller (fst run)) = Some "Recorder is already prepared"
  /\ recorder (caller (fst run)) = initial_recorder.
Proof.
  apply (start_failure_changes_only_the_error broken_audio screen_at_rest
           (Error "Recorder is already prepared")).
  reflexivity.
Defined.

(** ** Stopping a recording *)




Lemma stopRecording_screen audio w :
  phase (caller (fst (stopRecording audio w))) = phase (caller w)
  /\ error (caller (fst (stopRecording audio w))) = error (caller w)
  /\ processingStatus (caller (fst (stopRecording audio w)))
     = processingStatus (caller w).
Proof.
  unfold stopRecording, try_catch, bind, read, await, update, ret, throw.
  cbn. destruct (recordingRef (recorder (caller w))); cbn; [|auto].
  destruct (stopAndUnloadAsync audio); cbn; [|auto].
  destruct (setAudioModeAsync audio false); cbn; auto.
Qed.



Section StopPaths.

Variable audio : Audio.
Variable env : Env Screen.
Variables w w1 : World Screen.
Variable u : string.

Hypothesis stopped : stopRecording audio w = (w1, Ok (Some u)).
Hypothesis captured : u <> "".

Lemma stop_upload_fails e :
  create_reply env u "audio/m4a" (upload_calls (trace w)) = Throw e ->
  handleStopRecording audio env w
  = (mkWorld
       (trace w ++ [EvSetPhase uploading;
                    EvCreateSession u "audio/m4a" (Throw e);
                    EvSetError (Some (err_message e)); EvSetPhase idle])
       (mkScreen idle (Some (err_message e)) (processingStatus (caller w1))
                 (recorder (caller w1))),
     Ok tt).
Proof.
  intros Hcreate.
  pose proof (stopRecording_trace audio w) as Htr.
  unfold handleStopRecording, try_catch, bind.
  rewrite stopped in *. cbn [fst] in Htr.
  apply String.eqb_neq in captured. rewrite captured.
  unfold setPhase at 1. unfold bind, log, update. cbn [fst snd trace caller].
  unfold createSession, bind, log, await. cbn [fst snd trace caller].
  rewrite Htr.
  replace (upload_calls (trace w ++ [EvSetPhase uploading]))
    with (upload_calls (trace w))
    by (unfold upload_calls; rewrite count_app; cbn; lia).
  rewrite Hcreate.
  unfold setError, setPhase, bind, log, update.
  cbn [fst snd trace caller phase error processingStatus recorder].
  rewrite <- !app_assoc. reflexivity.
Qed.

Lemma stop_upload_accepted cr evs c res :
  create_reply env u "audio/m4a" (upload_calls (trace w)) = Ok cr ->
  waitForCompletion env (session_id cr) (Some onProcessingProgress) None None
    (mkWorld
       (trace w ++ [EvSetPhase uploading;
                    EvCreateSession u "audio/m4a" (Ok cr);
                    EvSetPhase processing])
       (mkScreen processing (error (caller w1))
                 (processingStatus (caller w1)) (recorder (caller w1))))
  = (mkWorld
       (trace w ++ [EvSetPhase uploading;
                    EvCreateSession u "audio/m4a" (Ok cr);
                    EvSetPhase processing] ++ evs) c,
     res) ->
  handleStopRecording audio env w
  = match res with
    | Ok r =>
        (mkWorld
           (trace w ++ [EvSetPhase uploading;
                        EvCreateSession u "audio/m4a" (Ok cr);
                        EvSetPhase processing]
            ++ evs ++ [EvNavigateReport r; EvSetPhase idle])
           (mkScreen idle (error c) (processingStatus c)
              (mkRecorder (mkRecordingState false false 0 None) (-160)
                          (recordingRef (recorder c))
                          (intervalRef (recorder c)))),
         Ok tt)
    | Throw e =>
        (mkWorld
           (trace w ++ [EvSetPhase uploading;
                        EvCreateSession u "audio/m4a" (Ok cr);
                        EvSetPhase processing]
            ++ evs ++ [EvSetError (Some (err_message e)); EvSetPhase idle])
           (mkScreen idle (Some (err_message e)) (processingStatus c)
                     (recorder c)),
         Ok tt)
    end.
Proof.
  intros Hcreate Hpoll.
  pose proof (stopRecording_trace audio w) as Htr.
  unfold handleStopRecording, try_catch, bind.
  rewrite stopped in *. cbn [fst] in Htr.
  apply String.eqb_neq in captured. rewrite captured.
  unfold setPhase at 1. unfold bind, log, update. cbn [fst snd trace caller].
  unfold createSession, bind, log, await. cbn [fst snd trace caller].
  rewrite Htr.
  replace (upload_calls (trace w ++ [EvSetPhase uploading]))
    with (upload_calls (trace w))
    by (unfold upload_calls; rewrite count_app; cbn; lia).
  rewrite Hcreate.
  unfold setPhase at 1. unfold bind, log, update.
  cbn [fst snd trace caller phase error processingStatus recorder].
  rewrite <- !app_assoc. cbn [app].
  rewrite Hpoll.
  destruct res as [r|e].
  - unfold navigateReport, setPhase, resetRecording, with_recorder, bind, log,
      update.
    cbn [fst snd trace caller phase error processingStatus recorder].
    rewrite <- !app_assoc. reflexivity.
  - unfold setError, setPhase, bind, log, update.
    cbn [fst snd trace caller phase error processingStatus recorder].
    rewrite <- !app_assoc. reflexivity.
Qed.

End StopPaths.

Lemma answers_same_calls {S} (env : Env S) sessionId (w w' : World S) rs :
  status_calls (trace w') = status_calls (trace w) ->
  answers env sessionId w rs -> answers env sessionId w' rs.
Proof. unfold answers. intros ->. auto. Qed.

(** X8.  When the upload is rejected or fails, stopping shows that error's
    message and goes [uploading] then straight back to [idle]: the phase
    [processing] is never entered, the job is never polled, nothing is
    retried. *)
Theorem stop_with_failed_upload (audio : Audio) (env : Env Screen)
    (w w1 : World Screen) (u : string) (e : JsError) :
  stopRecording audio w = (w1, Ok (Some u)) ->
  u <> "" ->
  create_reply env u "audio/m4a" (upload_calls (trace w)) = Throw e ->
  let run := handleStopRecording audio env w in
  snd run = Ok tt
  /\ trace (fst run)
     = trace w ++ [EvSetPhase uploading;
                   EvCreateSession u "audio/m4a" (Throw e);
                   EvSetError (Some (err_message e)); EvSetPhase idle]
  /\ phase (caller (fst run)) = idle
  /\ error (caller (fst run)) = Some (err_message e)
  /\ recorder (caller (fst run)) = recorder (caller w1).
Proof.
  intros Hstop Hu Hcreate run. subst run.
  rewrite (stop_upload_fails audio env w w1 u Hstop Hu e Hcreate).
  repeat split.
Qed.

Lemma stop_with_failed_upload_example :
  let run :=
    handleStopRecording working_audio
      (scripted [] st_pending (Ok sample_report)) screen_recording in
  snd run = Ok tt
  /\ trace (fst run)
     = trace screen_recording
       ++ [EvSetPhase uploading;
           EvCreateSession "file:///recording.m4a" "audio/m4a"
             (Throw (Error "Network request failed"));
           EvSetError (Some "Network request failed"); EvSetPhase idle]
  /\ phase (caller (fst run)) = idle
  /\ error (caller (fst run)) = Some "Network request failed"
  /\ recorder (caller (fst run))
     = recorder (caller (fst (stopRecording working_audio screen_recording))).
Proof.
  apply (stop_with_failed_upload working_audio
           (scripted [] st_pending (Ok sample_report)) screen_recording
           (fst (stopRecording working_audio screen_recording))
           "file:///recording.m4a" (Error "Network request failed")).
  - reflexivity.
  - discriminate.
  - reflexivity.
Defined.

(** X9.  When the upload is accepted and the job then fails (after any
    number of not-terminal answers within the 60 attempts), stopping shows
    the server's error message when there is one and "Processing failed"
    when the server sent none ([null] or the empty string), never navigates
    to a report, and ends in [idle] after [uploading] and [processing]. *)
Theorem stop_with_failed_job (audio : Audio) (env : Env Screen)
    (w w1 : World Screen) (u : string) (cr : SessionCreateResponse)
    (pre : list SessionStatusResponse) (last : SessionStatusResponse) :
  stopRecording audio w = (w1, Ok (Some u)) ->
  u <> "" ->
  create_reply env u "audio/m4a" (upload_calls (trace w)) = Ok cr ->
  Forall (fun st => terminal st = false) pre ->
  status last = "failed" ->
  (List.length (pre ++ [last]) <= 60)%nat ->
  answers env (session_id cr) w (pre ++ [last]) ->
  let run := handleStopRecording audio env w in
  let message :=
    match error_message last with
    | Some m => if String.eqb m "" then "Processing failed" else m
    | None => "Processing failed"
    end in
  snd run = Ok tt
  /\ trace (fst run)
     = trace w ++ [EvSetPhase uploading;
                   EvCreateSession u "audio/m4a" (Ok cr);
                   EvSetPhase processing]
       ++ flat_map (attempt_events Mobile (session_id cr)
                      (Some onProcessingProgress) 2000) pre
       ++ [EvGetStatus (session_id cr) (Ok last);
           EvProgress (PResponse last);
           EvSetError (Some message); EvSetPhase idle]
  /\ phase (caller (fst run)) = idle
  /\ error (caller (fst run)) = Some message.
Proof.
  intros Hstop Hu Hcreate Hpre Hlast Hlen Hans run message. subst run.
  set (w3 := mkWorld
       (trace w ++ [EvSetPhase uploading;
                    EvCreateSession u "audio/m4a" (Ok cr);
                    EvSetPhase processing])
       (mkScreen processing (error (caller w1))
                 (processingStatus (caller w1)) (recorder (caller w1)))).
  assert (Hans3 : answers env (session_id cr) w3 (pre ++ [last])).
  { apply (answers_same_calls env (session_id cr) w w3); [|exact Hans].
    subst w3. cbn [trace]. unfold status_calls. rewrite count_app. cbn. lia. }
  destruct (run_failed env Mobile (session_id cr) (Some onProcessingProgress)
              None None w3 pre last Hpre Hlast
              ltac:(cbn [or_default default_maxAttempts]; lia) Hans3)
    as [c Hrun].
  cbn [run_poller or_default default_interval] in Hrun.
  subst w3. cbn [trace] in Hrun. rewrite <- app_assoc in Hrun.
  rewrite (stop_upload_accepted audio env w w1 u Hstop Hu cr _ c _
             Hcreate Hrun).
  cbn [fst snd trace caller phase error failed_error ApiError err_message].
  assert (Hmessage :
    js_or (error_message last) "Processing failed" = message).
  { subst message. destruct (error_message last) as [m|]; cbn; [|reflexivity].
    destruct (String.eqb m ""); reflexivity. }
  rewrite Hmessage, <- !app_assoc. repeat split.
Qed.

Lemma stop_with_failed_job_example :
  (let run := handleStopRecording working_audio failing_backend
                screen_recording in
   snd run = Ok tt
   /\ trace (fst run)
      = trace screen_recording
        ++ [EvSetPhase uploading;
            EvCreateSession "file:///recording.m4a" "audio/m4a"
              (Ok (mkCreated "abc" "pending"));
            EvSetPhase processing]
        ++ flat_map (attempt_events Mobile "abc"
                       (Some onProcessingProgress) 2000) [st_pending]
        ++ [EvGetStatus "abc" (Ok (st_failed (Some "Audio too short")));
            EvProgress (PResponse (st_failed (Some "Audio too short")));
            EvSetError (Some "Audio too short"); EvSetPhase idle]
   /\ phase (caller (fst run)) = idle
   /\ error (caller (fst run)) = Some "Audio too short")
  /\ (let run := handleStopRecording working_audio silent_failing_backend
                   screen_recording in
      snd run = Ok tt
      /\ trace (fst run)
         = trace screen_recording
           ++ [EvSetPhase uploading;
               EvCreateSession "file:///recording.m4a" "audio/m4a"
                 (Ok (mkCreated "abc" "pending"));
               EvSetPhase processing]
           ++ flat_map (attempt_events Mobile "abc"
                          (Some onProcessingProgress) 2000) []
           ++ [EvGetStatus "abc" (Ok (st_failed None));
               EvProgress (PResponse (st_failed None));
               EvSetError (Some "Processing failed"); EvSetPhase idle]
      /\ phase (caller (fst run)) = idle
      /\ error (caller (fst run)) = Some "Processing failed").
Proof.
  split.
  - apply (stop_with_failed_job working_audio failing_backend
             screen_recording
             (fst (stopRecording working_audio screen_recording))
             "file:///recording.m4a" (mkCreated "abc" "pending")
             [st_pending] (st_failed (Some "Audio too short"))).
    + reflexivity.
    + discriminate.
    + reflexivity.
    + repeat constructor.
    + reflexivity.
    + cbn. lia.
    + reflexivity.
  - apply (stop_with_failed_job working_audio silent_failing_backend
             screen_recording
             (fst (stopRecording working_audio screen_recording))
             "file:///recording.m4a" (mkCreated "abc" "pending")
             [] (st_failed None)).
    + reflexivity.
    + discriminate.
    + reflexivity.
    + constructor.
    + reflexivity.
    + cbn. lia.
    + reflexivity.
Defined.

(** X10.  When the upload is accepted and the job completes within the 60
    attempts, stopping polls every 2000 ms, reports each status to the
    screen, fetches the report once, navigates to exactly that report, and
    ends in [idle] with the recorder's state reset; no error is set. *)
Theorem stop_with_completed_job (audio : Audio) (env : Env Screen)
    (w w1 : World Screen) (u : string) (cr : SessionCreateResponse)
    (pre : list SessionStatusResponse) (last : SessionStatusResponse)
    (r : SessionResponse) :
  stopRecording audio w = (w1, Ok (Some u)) ->
  u <> "" ->
  create_reply env u "audio/m4a" (upload_calls (trace w)) = Ok cr ->
  Forall (fun st => terminal st = false) pre ->
  status last = "completed" ->
  (List.length (pre ++ [last]) <= 60)%nat ->
  answers env (session_id cr) w (pre ++ [last]) ->
  report_reply env (session_id cr) (report_calls (trace w)) = Ok r ->
  let run := handleStopRecording audio env w in
  snd run = Ok tt
  /\ trace (fst run)
     = trace w ++ [EvSetPhase uploading;
                   EvCreateSession u "audio/m4a" (Ok cr);
                   EvSetPhase processing]
       ++ flat_map (attempt_events Mobile (session_id cr)
                      (Some onProcessingProgress) 2000) pre
       ++ [EvGetStatus (session_id cr) (Ok last);
           EvProgress (PResponse last);
           EvGetReport (session_id cr) (Ok r);
           EvNavigateReport r; EvSetPhase idle]
  /\ phase (caller (fst run)) = idle
  /\ state (recorder (caller (fst run)))
     = mkRecordingState false false 0 None
  /\ metering (recorder (caller (fst run))) = -160.
Proof.
  intros Hstop Hu Hcreate Hpre Hlast Hlen Hans Hreport run. subst run.
  set (w3 := mkWorld
       (trace w ++ [EvSetPhase uploading;
                    EvCreateSession u "audio/m4a" (Ok cr);
                    EvSetPhase processing])
       (mkScreen processing (error (caller w1))
                 (processingStatus (caller w1)) (recorder (caller w1)))).
  assert (Hans3 : answers env (session_id cr) w3 (pre ++ [last])).
  { apply (answers_same_calls env (session_id cr) w w3); [|exact Hans].
    subst w3. cbn [trace]. unfold status_calls. rewrite count_app. cbn. lia. }
  assert (Hrep3 : report_calls (trace w3) = report_calls (trace w)).
  { subst w3. cbn [trace]. unfold report_calls. rewrite count_app. cbn. lia. }
  destruct (run_completed env Mobile (session_id cr)
              (Some onProcessingProgress) None None w3 pre last Hpre Hlast
              ltac:(cbn [or_default default_maxAttempts]; lia) Hans3)
    as [c Hrun].
  cbn [run_poller or_default default_interval] in Hrun.
  rewrite Hrep3, Hreport in Hrun.
  subst w3. cbn [trace] in Hrun. rewrite <- app_assoc in Hrun.
  rewrite (stop_upload_accepted audio env w w1 u Hstop Hu cr _ c _
             Hcreate Hrun).
  cbn [fst snd trace caller phase recorder state metering].
  rewrite <- !app_assoc. repeat split.
Qed.

Lemma stop_with_completed_job_example :
  let run := handleStopRecording working_audio serving screen_recording in
  snd run = Ok tt
  /\ trace (fst run)
     = trace screen_recording
       ++ [EvSetPhase uploading;
           EvCreateSession "file:///recording.m4a" "audio/m4a"
             (Ok (mkCreated "abc" "pending"));
           EvSetPhase processing]
       ++ flat_map (attempt_events Mobile "abc"
                      (Some onProcessingProgress) 2000) [st_processing]
       ++ [EvGetStatus "abc" (Ok st_completed);
           EvProgress (PResponse st_completed);
           EvGetReport "abc" (Ok sample_report);
           EvNavigateReport sample_report; EvSetPhase idle]
  /\ phase (caller (fst run)) = idle
  /\ state (recorder (caller (fst run)))
     = mkRecordingState false false 0 None
  /\ metering (recorder (caller (fst run))) = -160.
Proof.
  apply (stop_with_completed_job working_audio serving screen_recording
           (fst (stopRecording working_audio screen_recording))
           "file:///recording.m4a" (mkCreated "abc" "pending")
           [st_processing] st_completed sample_report).
  - reflexivity.
  - discriminate.
  - reflexivity.
  - repeat constructor.
  - reflexivity.
  - cbn. lia.
  - reflexivity.
  - reflexivity.
Defined.

(** X11.  When the platform fails to stop a live recording, stopping shows
    that error and puts the screen back to [idle] without uploading, while
    the hook still holds the live recording and its recording state is
    unchanged; only the metering timer is gone. *)
Theorem stop_failure_keeps_the_recording (audio : Audio) (env : Env Screen)
    (w : World Screen) (e : JsError) :
  recordingRef (recorder (caller w)) = true ->
  stopAndUnloadAsync audio = Throw e ->
  let run := handleStopRecording audio env w in
  snd run = Ok tt
  /\ trace (fst run)
     = trace w ++ [EvSetError (Some (err_message e)); EvSetPhase idle]
  /\ phase (caller (fst run)) = idle
  /\ error (caller (fst run)) = Some (err_message e)
  /\ recordingRef (recorder (caller (fst run))) = true
  /\ intervalRef (recorder (caller (fst run))) = false
  /\ state (recorder (caller (fst run))) = state (recorder (caller w)).
Proof.
  intros Hlive Hfail run. subst run.
  unfold handleStopRecording, stopRecording, try_catch, bind, read, await,
    update, ret, throw, setError, setPhase, log.
  cbn. rewrite Hlive. cbn. rewrite Hfail. cbn.
  rewrite <- app_assoc. repeat split. exact Hlive.
Qed.

Lemma stop_failure_keeps_the_recording_example :
  let run :=
    handleStopRecording stuck_audio
      (scripted [] st_pending (Ok sample_report)) screen_recording in
  snd run = Ok tt
  /\ trace (fst run)
     = trace screen_recording
       ++ [EvSetError (Some "Recorder does not exist"); EvSetPhase idle]
  /\ phase (caller (fst run)) = idle
  /\ error (caller (fst run)) = Some "Recorder does not exist"
  /\ recordingRef (recorder (caller (fst run))) = true
  /\ intervalRef (recorder (caller (fst run))) = false
  /\ state (recorder (caller (fst run)))
     = state (recorder (caller screen_recording)).
Proof.
  apply (stop_failure_keeps_the_recording stuck_audio
           (scripted [] st_pending (Ok sample_report)) screen_recording
           (Error "Recorder does not exist")).
  - reflexivity.
  - reflexivity.
Defined.

(** X12.  Once the hook's [stopRecording] has fulfilled, the recording is
    released: stopping again, on any device, returns [null] and changes
    nothing. *)
Theorem second_stop_returns_null (audio audio' : Audio) (w : World Screen)
    (u : option string) :
  snd (stopRecording audio w) = Ok u ->
  stopRecording audio' (fst (stopRecording audio w))
  = (fst (stopRecording audio w), Ok None).
Proof.
  unfold stopRecording, try_catch, bind, read, await, update, ret, throw.
  cbn. destruct (recordingRef (recorder (caller w))) eqn:Hlive; cbn.
  - destruct (stopAndUnloadAsync audio) as [[]|e]; cbn; [|discriminate].
    destruct (setAudioModeAsync audio false) as [[]|e]; cbn; [|discriminate].
    reflexivity.
  - rewrite Hlive. reflexivity.
Qed.

Lemma second_stop_returns_null_example :
  stopRecording stuck_audio
    (fst (stopRecording working_audio screen_recording))
  = (fst (stopRecording working_audio screen_recording), Ok None).
Proof.
  apply (second_stop_returns_null working_audio stuck_audio screen_recording
           (Some "file:///recording.m4a")).
  reflexivity.
Defined.

(** X13.  On a live recording that is not paused, pausing marks the hook
    paused and resuming afterwards gives back exactly the world before the
    pause (when both platform calls succeed). *)
Theorem pause_then_resume_restores (audio : Audio) (pauseAsync : Result unit)
    (w : World Screen) :
  recordingRef (recorder (caller w)) = true ->
  isPaused (state (recorder (caller w))) = false ->
  pauseAsync = Ok tt ->
  startAsync audio = Ok tt ->
  let paused := fst (pauseRecording pauseAsync w) in
  isPaused (state (recorder (caller paused))) = true
  /\ resumeRecording audio paused = (w, Ok tt).
Proof.
  intros Hlive Hnot Hpause Hstart paused. subst paused.
  unfold pauseRecording, resumeRecording, bind, read, await, update, ret.
  cbn. rewrite Hlive, Hpause. cbn. rewrite Hlive, Hstart. cbn.
  split; [reflexivity|].
  destruct w as [t [ph er ps [[rec pa du ur] me rr ir]]].
  cbn in *. subst pa. reflexivity.
Qed.

Lemma pause_then_resume_restores_example :
  let paused := fst (pauseRecording (Ok tt) screen_recording) in
  isPaused (state (recorder (caller paused))) = true
  /\ resumeRecording working_audio paused = (screen_recording, Ok tt).
Proof.
  apply (pause_then_resume_restores working_audio (Ok tt) screen_recording);
    reflexivity.
Defined.

(** ** Token storage and request headers *)

Lemma dict_get_set_same k v d : dict_get k (dict_set k v d) = Some v.
Proof.
  induction d as [|[k' v'] d IH]; cbn.
  - rewrite String.eqb_refl. reflexivity.
  - destruct (String.eqb k' k) eqn:He; cbn.
    + rewrite String.eqb_refl. reflexivity.
    + rewrite He. exact IH.
Qed.

Lemma dict_get_set_other k k' v d :
  k' <> k -> dict_get k' (dict_set k v d) = dict_get k' d.
Proof.
  intros Hne. induction d as [|[k0 v0] d IH]; cbn.
  - apply not_eq_sym in Hne. apply String.eqb_neq in Hne. rewrite Hne.
    reflexivity.
  - destruct (String.eqb k0 k) eqn:He; cbn.
    + apply String.eqb_eq in He. subst k0.
      apply not_eq_sym in Hne. apply String.eqb_neq in Hne. rewrite Hne.
      reflexivity.
    + rewrite IH. reflexivity.
Qed.

Lemma dict_get_remove_same k d : dict_get k (dict_remove k d) = None.
Proof.
  induction d as [|[k' v'] d IH]; cbn; [reflexivity|].
  destruct (String.eqb k' k) eqn:He; cbn; [exact IH|].
  rewrite He. exact IH.
Qed.

Lemma dict_get_remove_other k k' d :
  k' <> k -> dict_get k' (dict_remove k d) = dict_get k' d.
Proof.
  intros Hne. induction d as [|[k0 v0] d IH]; cbn; [reflexivity|].
  destruct (String.eqb k0 k) eqn:He; cbn.
  - apply String.eqb_eq in He. subst k0.
    apply not_eq_sym in Hne. apply String.eqb_neq in Hne. rewrite Hne.
    exact IH.
  - rewrite IH. reflexivity.
Qed.

Lemma dict_get_not_in k d : ~ In k (map fst d) -> dict_get k d = None.
Proof.
  induction d as [|[k' v'] d IH]; cbn; [reflexivity|].
  intros Hnot. destruct (String.eqb k' k) eqn:He.
  - apply String.eqb_eq in He. exfalso. apply Hnot. left. exact He.
  - apply IH. intros Hin. apply Hnot. right. exact Hin.
Qed.

Lemma dict_get_spread k extra :
  NoDup (map fst extra) ->
  forall base,
    dict_get k (spread base extra)
    = match dict_get k extra with
      | Some v => Some v
      | None => dict_get k base
      end.
Proof.
  unfold spread.
  induction extra as [|[k' v'] extra IH]; intros Hnd base; cbn.
  - reflexivity.
  - inversion Hnd as [|? ? Hnotin Hnd']; subst.
    rewrite (IH Hnd'). destruct (String.eqb k' k) eqn:He.
    + apply String.eqb_eq in He. subst k'.
      rewrite (dict_get_not_in k extra Hnotin).
      apply dict_get_set_same.
    + destruct (dict_get k extra); [reflexivity|].
      apply dict_get_set_other. intros ->.
      rewrite String.eqb_refl in He. discriminate.
Qed.

(** X14.  In a browser, with the default adapter: the token read after
    [setAuthToken] is the token stored, after [clearAuthToken] there is
    none, and neither touches any other key of the storage. *)
Theorem token_round_trip (b : Browser) (token : string) :
  has_window b = true ->
  getAuthToken defaultAdapter (setAuthToken defaultAdapter token b)
  = Some token
  /\ getAuthToken defaultAdapter
       (clearAuthToken defaultAdapter (setAuthToken defaultAdapter token b))
     = None
  /\ (forall key,
        key <> TOKEN_KEY ->
        getItem defaultAdapter key (setAuthToken defaultAdapter token b)
        = getItem defaultAdapter key b
        /\ getItem defaultAdapter key (clearAuthToken defaultAdapter b)
           = getItem defaultAdapter key b).
Proof.
  intros Hwin.
  unfold getAuthToken, setAuthToken, clearAuthToken, defaultAdapter.
  cbn. rewrite !Hwin. cbn. rewrite ?Hwin. cbn.
  split; [apply dict_get_set_same|].
  split; [apply dict_get_remove_same|].
  intros key Hkey. split.
  - apply dict_get_set_other. exact Hkey.
  - apply dict_get_remove_other. exact Hkey.
Qed.

Lemma token_round_trip_example :
  let b := mkBrowser true [("speakflow_onboarding_complete", "true");
                           ("speakflow_token", "old")] in
  getAuthToken defaultAdapter (setAuthToken defaultAdapter "new" b)
  = Some "new"
  /\ getAuthToken defaultAdapter
       (clearAuthToken defaultAdapter (setAuthToken defaultAdapter "new" b))
     = None
  /\ (forall key,
        key <> TOKEN_KEY ->
        getItem defaultAdapter key (setAuthToken defaultAdapter "new" b)
        = getItem defaultAdapter key b
        /\ getItem defaultAdapter key (clearAuthToken defaultAdapter b)
           = getItem defaultAdapter key b).
Proof.
  apply (token_round_trip
           (mkBrowser true [("speakflow_onboarding_complete", "true");
                            ("speakflow_token", "old")]) "new").
  reflexivity.
Defined.

Lemma apiFetch_headers_lookup (token : option string) (opts : Dict) :
  NoDup (map fst opts) ->
  let headers := apiFetch_headers token (Some opts) in
  dict_get "Authorization" headers
  = match token with
    | Some t =>
        if String.eqb t "" then dict_get "Authorization" opts
        else Some (String.append "Bearer " t)
    | None => dict_get "Authorization" opts
    end
  /\ dict_get "Content-Type" headers
     = match dict_get "Content-Type" opts with
       | Some v => Some v
       | None => Some "application/json"
       end
  /\ (forall k,
        k <> "Authorization" -> k <> "Content-Type" ->
        dict_get k headers = dict_get k opts).
Proof.
  intros Hnd headers. subst headers. unfold apiFetch_headers.
  assert (Hauth :
    dict_get "Authorization"
      (spread [("Content-Type", "application/json")] opts)
    = dict_get "Authorization" opts).
  { rewrite (dict_get_spread _ _ Hnd).
    destruct (dict_get "Authorization" opts); reflexivity. }
  assert (Hct :
    dict_get "Content-Type"
      (spread [("Content-Type", "application/json")] opts)
    = match dict_get "Content-Type" opts with
      | Some v => Some v
      | None => Some "application/json"
      end).
  { rewrite (dict_get_spread _ _ Hnd). reflexivity. }
  assert (Hother : forall k,
    k <> "Content-Type" ->
    dict_get k (spread [("Content-Type", "application/json")] opts)
    = dict_get k opts).
  { intros k Hk. rewrite (dict_get_spread _ _ Hnd).
    destruct (dict_get k opts); [reflexivity|]. cbn [dict_get].
    apply not_eq_sym in Hk. apply String.eqb_neq in Hk. rewrite Hk.
    reflexivity. }
  destruct token as [t|]; [destruct (String.eqb t "")|].
  - split; [exact Hauth|]. split; [exact Hct|]. intros k _ Hk. auto.
  - split; [apply dict_get_set_same|]. split.
    + rewrite dict_get_set_other by discriminate. exact Hct.
    + intros k Ha Hk. rewrite dict_get_set_other by exact Ha. auto.
  - split; [exact Hauth|]. split; [exact Hct|]. intros k _ Hk. auto.
Qed.

(** X15.  The headers [apiFetch] sends, for a caller whose own headers are
    an object (no key twice): a stored, non-empty token always decides
    [Authorization], over anything the caller passed; without a token the
    caller's [Authorization], if any, goes through; [Content-Type] is the
    caller's if given and [application/json] otherwise; every other header
    is exactly the caller's. *)
Theorem apiFetch_headers_merge (token : option string) (opts : Dict) :
  NoDup (map fst opts) ->
  let headers := apiFetch_headers token (Some opts) in
  dict_get "Authorization" headers
  = match token with
    | Some t =>
        if String.eqb t "" then dict_get "Authorization" opts
        else Some (String.append "Bearer " t)
    | None => dict_get "Authorization" opts
    end
  /\ dict_get "Content-Type" headers
     = match dict_get "Content-Type" opts with
       | Some v => Some v
       | None => Some "application/json"
       end
  /\ (forall k,
        k <> "Authorization" -> k <> "Content-Type" ->
        dict_get k headers = dict_get k opts).
Proof. apply apiFetch_headers_lookup. Qed.

Lemma apiFetch_headers_merge_example :
  let headers :=
    apiFetch_headers (Some "t0k3n")
      (Some [("Authorization", "Basic abc"); ("Accept", "text/plain")]) in
  dict_get "Authorization" headers = Some "Bearer t0k3n"
  /\ dict_get "Content-Type" headers = Some "application/json"
  /\ (forall k,
        k <> "Authorization" -> k <> "Content-Type" ->
        dict_get k headers
        = dict_get k [("Authorization", "Basic abc");
                      ("Accept", "text/plain")]).
Proof.
  apply (apiFetch_headers_merge (Some "t0k3n")
           [("Authorization", "Basic abc"); ("Accept", "text/plain")]).
  repeat constructor; cbn; intuition discriminate.
Defined.

(** X16.  Outside a browser the default adapter stores nothing: a token
    set there is not read back, and the requests built from it carry no
    [Authorization] header of their own, only what the caller passed. *)
Theorem no_token_without_window (b : Browser) (token : string)
    (opts : Dict) :
  has_window b = false ->
  NoDup (map fst opts) ->
  let b' := setAuthToken defaultAdapter token b in
  b' = b
  /\ getAuthToken defaultAdapter b' = None
  /\ dict_get "Authorization"
       (apiFetch_headers (getAuthToken defaultAdapter b') (Some opts))
     = dict_get "Authorization" opts.
Proof.
  intros Hwin Hnd b'. subst b'.
  unfold getAuthToken, setAuthToken, defaultAdapter. cbn. rewrite !Hwin.
  cbn. rewrite ?Hwin.
  split; [reflexivity|]. split; [reflexivity|].
  exact (proj1 (apiFetch_headers_lookup None opts Hnd)).
Qed.

Lemma no_token_without_window_example :
  let b' :=
    setAuthToken defaultAdapter "t0k3n"
      (mkBrowser false [("speakflow_token", "left over")]) in
  b' = mkBrowser false [("speakflow_token", "left over")]
  /\ getAuthToken defaultAdapter b' = None
  /\ dict_get "Authorization"
       (apiFetch_headers (getAuthToken defaultAdapter b')
                         (Some [("Accept", "text/plain")]))
     = dict_get "Authorization" [("Accept", "text/plain")].
Proof.
  apply (no_token_without_window
           (mkBrowser false [("speakflow_token", "left over")]) "t0k3n"
           [("Accept", "text/plain")]).
  - reflexivity.
  - repeat constructor; cbn; intuition discriminate.
Defined.

(** ** HTTP errors, as the user meets them *)

(** X17.  When a status request of [pollSessionStatus] is answered with an
    HTTP error, the poll ends at once with an [ApiError] whose code is the
    HTTP status and whose message is the [detail] of the JSON body, or the
    status text when the body is not JSON or has no (or an empty)
    [detail].  The caller sees a timeout exactly when that status is 408
    and a processing failure exactly when it is 500. *)
Theorem poll_surfaces_http_error {S} (env : Env S)
    (parse : string -> Result SessionStatusResponse)
    (empty_object : SessionStatusResponse)
    (sessionId : string) (onProgress : option (Payload -> S -> S))
    (interval maxAttempts : option Z) (w : World S)
    (pre : list SessionStatusResponse) (r : ErrorResponse) :
  Forall (fun st => terminal st = false) pre ->
  answers env sessionId w pre ->
  status_reply env sessionId (status_calls (trace w) + List.length pre)
  = apiFetch parse empty_object (NotOk r) ->
  Z.of_nat (List.length pre) < or_default maxAttempts 120 ->
  let message :=
    match error_body r with
    | Json (Some d) => if String.eqb d "" then statusText r else d
    | _ => statusText r
    end in
  let e := ApiError message (http_status r) in
  snd (pollSessionStatus env sessionId onProgress interval maxAttempts w)
  = Throw e
  /\ status_calls
       (trace (fst (pollSessionStatus env sessionId onProgress interval
                      maxAttempts w)))
     = Datatypes.S (status_calls (trace w) + List.length pre)
  /\ is_timeout e = Z.eqb (http_status r) 408
  /\ is_processing_failed e = Z.eqb (http_status r) 500.
Proof.
  intros Hpre Hans Hreply Hlen message e.
  assert (Herr : apiFetch parse empty_object (NotOk r) = Throw e).
  { subst e message. cbn. destruct (error_body r) as [|[d|]]; reflexivity. }
  rewrite Herr in Hreply.
  destruct (run_request_error env Web sessionId onProgress interval maxAttempts
              w pre e Hpre Hans Hreply Hlen) as [c Hrun].
  cbn [run_poller] in Hrun. rewrite Hrun. cbn [fst snd trace].
  split; [reflexivity|]. split; [|split; reflexivity].
  rewrite app_assoc. unfold status_calls at 1. rewrite count_app.
  fold (status_calls
          (trace w
           ++ flat_map (attempt_events Web sessionId onProgress
                          (or_default interval (default_interval Web))) pre)).
  rewrite status_calls_after_attempts. cbn. lia.
Qed.

Lemma poll_surfaces_http_error_example :
  let env : Env unit :=
    mkEnv (fun _ k =>
             apiFetch (fun _ => Ok st_pending) st_pending
               (NotOk (mkErrorResponse 408 "Request Timeout" NotJson)))
          (fun _ _ => Ok sample_report)
          (fun _ _ _ => Throw (Error "Network request failed"))
          (fun _ u => u) in
  let e := ApiError "Request Timeout" 408 in
  snd (pollSessionStatus env "abc" None None None fresh) = Throw e
  /\ status_calls (trace (fst (pollSessionStatus env "abc" None None None
                                 fresh)))
     = 1%nat
  /\ is_timeout e = Z.eqb 408 408
  /\ is_processing_failed e = Z.eqb 408 500.
Proof.
  apply (poll_surfaces_http_error
           (mkEnv (fun _ k =>
                     apiFetch (fun _ => Ok st_pending) st_pending
                       (NotOk (mkErrorResponse 408 "Request Timeout" NotJson)))
                  (fun _ _ => Ok sample_report)
                  (fun _ _ _ => Throw (Error "Network request failed"))
                  (fun _ u => u))
           (fun _ => Ok st_pending) st_pending "abc" None None None fresh []
           (mkErrorResponse 408 "Request Timeout" NotJson)).
  - constructor.
  - reflexivity.
  - reflexivity.
  - vm_compute. reflexivity.
Defined.

(** X18.  When the upload of the mobile screen is answered with an HTTP
    error, the screen goes [uploading] then back to [idle], the job is
    never polled, and the message shown depends on the body: "Unknown
    error" when it is not JSON; the message of the engine's [TypeError]
    when it is JSON [null]; a non-empty string [detail] itself; for a
    [detail] that is not a string, its text as [String] gives it when it
    is truthy (so "[object Object]" for the array of a validation error);
    and the status text in every other case (no [detail], or a falsy
    one). *)
Theorem stop_shows_upload_http_error (audio : Audio) (env : Env Screen)
    (parse : string -> Result SessionCreateResponse)
    (detail_of_null : JsError)
    (w w1 : World Screen) (u : string)
    (code : Z) (text : string) (json : ErrorJson) :
  stopRecording audio w = (w1, Ok (Some u)) ->
  u <> "" ->
  create_reply env u "audio/m4a" (upload_calls (trace w))
  = handleResponse parse detail_of_null (ResponseNotOk code text json) ->
  let message :=
    match json with
    | JsonRejects => "Unknown error"
    | JsonNull => err_message detail_of_null
    | JsonValue None => text
    | JsonValue (Some (DetailString d)) =>
        if String.eqb d "" then text else d
    | JsonValue (Some (DetailOther is_truthy as_string)) =>
        if is_truthy then as_string else text
    end in
  let run := handleStopRecording audio env w in
  error (caller (fst run)) = Some message
  /\ phase (caller (fst run)) = idle
  /\ phases_entered (trace (fst run))
     = phases_entered (trace w) ++ [uploading; idle]
  /\ status_calls (trace (fst run)) = status_calls (trace w).
Proof.
  intros Hstop Hu Hcreate message run. subst run.
  assert (Herr : exists e,
    handleResponse parse detail_of_null (ResponseNotOk code text json)
    = Throw e /\ err_message e = message).
  { subst message. destruct json as [| |[[d|t a]|]]; cbn.
    - eexists. split; reflexivity.
    - eexists. split; reflexivity.
    - destruct (String.eqb d ""); eexists; split; reflexivity.
    - destruct t; eexists; split; reflexivity.
    - eexists. split; reflexivity. }
  destruct Herr as [e [Herr Hmessage]].
  rewrite Herr in Hcreate.
  rewrite (stop_upload_fails audio env w w1 u Hstop Hu _ Hcreate).
  cbn [fst snd trace caller phase error].
  rewrite Hmessage, phases_entered_app. unfold status_calls.
  rewrite count_app.
  repeat split. cbn. lia.
Qed.

Lemma stop_shows_upload_http_error_example :
  (let run :=
     handleStopRecording working_audio
       (rejecting_upload
          (ResponseNotOk 422 "Unprocessable Entity"
             (JsonValue (Some (DetailOther true "[object Object]")))))
       screen_recording in
   error (caller (fst run)) = Some "[object Object]"
   /\ phase (caller (fst run)) = idle
   /\ phases_entered (trace (fst run))
      = phases_entered (trace screen_recording) ++ [uploading; idle]
   /\ status_calls (trace (fst run))
      = status_calls (trace screen_recording))
  /\ (let run :=
        handleStopRecording working_audio
          (rejecting_upload (ResponseNotOk 502 "Bad Gateway" JsonNull))
          screen_recording in
      error (caller (fst run))
      = Some "Cannot read property 'detail' of null"
      /\ phase (caller (fst run)) = idle
      /\ phases_entered (trace (fst run))
         = phases_entered (trace screen_recording) ++ [uploading; idle]
      /\ status_calls (trace (fst run))
         = status_calls (trace screen_recording))
  /\ (let run :=
        handleStopRecording working_audio
          (rejecting_upload (ResponseNotOk 502 "Bad Gateway" JsonRejects))
          screen_recording in
      error (caller (fst run)) = Some "Unknown error"
      /\ phase (caller (fst run)) = idle
      /\ phases_entered (trace (fst run))
         = phases_entered (trace screen_recording) ++ [uploading; idle]
      /\ status_calls (trace (fst run))
         = status_calls (trace screen_recording))
  /\ (let run :=
        handleStopRecording working_audio
          (rejecting_upload
             (ResponseNotOk 413 "Payload Too Large"
                (JsonValue (Some (DetailString "Audio file too large")))))
          screen_recording in
      error (caller (fst run)) = Some "Audio file too large"
      /\ phase (caller (fst run)) = idle
      /\ phases_entered (trace (fst run))
         = phases_entered (trace screen_recording) ++ [uploading; idle]
      /\ status_calls (trace (fst run))
         = status_calls (trace screen_recording))
  /\ (let run :=
        handleStopRecording working_audio
          (rejecting_upload
             (ResponseNotOk 500 "Internal Server Error" (JsonValue None)))
          screen_recording in
      error (caller (fst run)) = Some "Internal Server Error"
      /\ phase (caller (fst run)) = idle
      /\ phases_entered (trace (fst run))
         = phases_entered (trace screen_recording) ++ [uploading; idle]
      /\ status_calls (trace (fst run))
         = status_calls (trace screen_recording)).
Proof.
  split; [|split; [|split; [|split]]].
  - apply (stop_shows_upload_http_error working_audio
             (rejecting_upload (ResponseNotOk 422 "Unprocessable Entity"
               (JsonValue (Some (DetailOther true "[object Object]")))))
             (fun _ => Ok (mkCreated "abc" "pending")) hermes_detail_of_null
             screen_recording
             (fst (stopRecording working_audio screen_recording))
             "file:///recording.m4a"
             422 "Unprocessable Entity"
               (JsonValue (Some (DetailOther true "[object Object]"))));
      [reflexivity | discriminate | reflexivity].
  - apply (stop_shows_upload_http_error working_audio
             (rejecting_upload (ResponseNotOk 502 "Bad Gateway" JsonNull))
             (fun _ => Ok (mkCreated "abc" "pending")) hermes_detail_of_null
             screen_recording
             (fst (stopRecording working_audio screen_recording))
             "file:///recording.m4a"
             502 "Bad Gateway" JsonNull);
      [reflexivity | discriminate | reflexivity].
  - apply (stop_shows_upload_http_error working_audio
             (rejecting_upload (ResponseNotOk 502 "Bad Gateway" JsonRejects))
             (fun _ => Ok (mkCreated "abc" "pending")) hermes_detail_of_null
             screen_recording
             (fst (stopRecording working_audio screen_recording))
             "file:///recording.m4a"
             502 "Bad Gateway" JsonRejects);
      [reflexivity | discriminate | reflexivity].
  - apply (stop_shows_upload_http_error working_audio
             (rejecting_upload (ResponseNotOk 413 "Payload Too Large"
               (JsonValue (Some (DetailString "Audio file too large")))))
             (fun _ => Ok (mkCreated "abc" "pending")) hermes_detail_of_null
             screen_recording
             (fst (stopRecording working_audio screen_recording))
             "file:///recording.m4a"
             413 "Payload Too Large"
               (JsonValue (Some (DetailString "Audio file too large"))));
      [reflexivity | discriminate | reflexivity].
  - apply (stop_shows_upload_http_error working_audio
             (rejecting_upload (ResponseNotOk 500 "Internal Server Error" (JsonValue None)))
             (fun _ => Ok (mkCreated "abc" "pending")) hermes_detail_of_null
             screen_recording
             (fst (stopRecording working_audio screen_recording))
             "file:///recording.m4a"
             500 "Internal Server Error" (JsonValue None));
      [reflexivity | discriminate | reflexivity].
Defined.

(** ** The duration shown while recording *)

Lemma length_append a b :
  String.length (String.append a b)
  = (String.length a + String.length b)%nat.
Proof.
  induction a as [|c a IH]; cbn; [reflexivity|]. rewrite IH. reflexivity.
Qed.

Lemma append_inj_suffix a b u v :
  String.length u = String.length v ->
  String.append a u = String.append b v -> a = b /\ u = v.
Proof.
  intros Hlen. revert b. induction a as [|c a IH]; intros b H.
  - destruct b as [|d b]; cbn in H; [auto|].
    exfalso. apply (f_equal String.length) in H. cbn in H.
    rewrite length_append in H. lia.
  - destruct b as [|d b]; cbn in H.
    + exfalso. apply (f_equal String.length) in H. cbn in H.
      rewrite length_append in H. lia.
    + injection H as -> H. destruct (IH b H) as [-> ->]. auto.
Qed.

Lemma to_int_not_nil z :
  Z.to_int z <> Decimal.Pos Decimal.Nil
  /\ Z.to_int z <> Decimal.Neg Decimal.Nil.
Proof.
  pose proof (DecimalZ.to_of (Z.to_int z)) as H. rewrite DecimalZ.of_to in H.
  split; intros E; rewrite E in H; discriminate H.
Qed.

Lemma toString_inj a b : toString a = toString b -> a = b.
Proof.
  unfold toString. intros H.
  destruct (to_int_not_nil a) as [Ha1 Ha2].
  destruct (to_int_not_nil b) as [Hb1 Hb2].
  apply (f_equal NilZero.int_of_string) in H.
  rewrite !NilZero.isi in H by assumption.
  injection H as H. apply DecimalZ.to_int_inj. exact H.
Qed.

Lemma below_60 r : 0 <= r < 60 -> In r (map Z.of_nat (seq 0 60)).
Proof.
  intros H. apply in_map_iff. exists (Z.to_nat r). split; [lia|].
  apply in_seq. lia.
Qed.

Lemma seconds_field_length r :
  0 <= r < 60 -> String.length (padStart 2 "0" (toString r)) = 2%nat.
Proof.
  intros H. apply below_60 in H.
  assert (Hb : forallb (fun r =>
                 Nat.eqb (String.length (padStart 2 "0" (toString r))) 2)
                 (map Z.of_nat (seq 0 60)) = true)
    by (vm_compute; reflexivity).
  rewrite forallb_forall in Hb. apply Nat.eqb_eq. apply Hb. exact H.
Qed.

Lemma seconds_field_inj r r' :
  0 <= r < 60 -> 0 <= r' < 60 ->
  padStart 2 "0" (toString r) = padStart 2 "0" (toString r') -> r = r'.
Proof.
  intros H H' E. apply below_60 in H. apply below_60 in H'.
  assert (Hb : forallb (fun r =>
             forallb (fun r' =>
                        implb (String.eqb (padStart 2 "0" (toString r))
                                          (padStart 2 "0" (toString r')))
                              (Z.eqb r r'))
                     (map Z.of_nat (seq 0 60)))
             (map Z.of_nat (seq 0 60)) = true)
    by (vm_compute; reflexivity).
  rewrite forallb_forall in Hb. specialize (Hb r H).
  rewrite forallb_forall in Hb. specialize (Hb r' H').
  apply String.eqb_eq in E. rewrite E in Hb. cbn in Hb.
  apply Z.eqb_eq. exact Hb.
Qed.

(** X19.  For a duration of whole seconds between 0 and
    [Number.MAX_SAFE_INTEGER] the text shown is the decimal number of
    whole minutes, a colon, and a seconds field of exactly two characters;
    two different durations in that range are never shown as the same
    text. *)
Theorem formatDuration_reads_back (a b : Z) :
  0 <= a <= MAX_SAFE_INTEGER ->
  0 <= b <= MAX_SAFE_INTEGER ->
  formatDuration a
  = String.append (toString (a / 60))
      (String.append ":" (padStart 2 "0" (toString (a mod 60))))
  /\ String.length (padStart 2 "0" (toString (a mod 60))) = 2%nat
  /\ (formatDuration a = formatDuration b -> a = b).
Proof.
  intros [Ha _] [Hb _].
  assert (Hra : 0 <= a mod 60 < 60) by (apply Z.mod_pos_bound; lia).
  assert (Hrb : 0 <= b mod 60 < 60) by (apply Z.mod_pos_bound; lia).
  unfold formatDuration. cbv zeta.
  rewrite !Z.rem_mod_nonneg by lia.
  split; [reflexivity|]. split; [apply seconds_field_length; exact Hra|].
  intros H. apply append_inj_suffix in H.
  - destruct H as [Hm Hs]. apply toString_inj in Hm.
    injection Hs as Hs. apply seconds_field_inj in Hs; try assumption.
    rewrite (Z.div_mod a 60), (Z.div_mod b 60) by lia.
    rewrite Hm, Hs. reflexivity.
  - rewrite !length_append, !seconds_field_length by assumption.
    reflexivity.
Qed.

Lemma formatDuration_reads_back_example :
  formatDuration 3725 = "62:05"
  /\ String.length (padStart 2 "0" (toString (3725 mod 60))) = 2%nat
  /\ (formatDuration 3725 = formatDuration 65 -> 3725 = 65).
Proof.
  apply (formatDuration_reads_back 3725 65); vm_compute; split; discriminate.
Defined.
